(** * EzExtender: the deadline-extension decision engine

    A shallow embedding of [app/rules.py], [app/rag.py], [app/precedent.py]
    and the two request handlers of [app/main.py], followed by the
    properties of the engine that the specification states.

    Modelling conventions.
    - A Python [str] is a [string] of ASCII characters: [lower], [upper] and
      [strip] are the ASCII fragments of the Python methods.
    - A Python [float] is the rational number it stands for; a float
      literal and the result of every float operation are rounded to the
      nearest binary64 number by [PyNum.fl].
    - A point in time is a number of microseconds since the Unix epoch.
    - The Chroma collections, the counter file [data/precedent.json], the
      wall clock and the id generator form the [World] the handlers run in;
      the embedding model is an arbitrary distance function. *)

From Stdlib Require Import ZArith QArith Qround Qminmax Qabs Qpower Lqa Lia List Ascii Sorted.
From Stdlib Require String.
From stdpp Require Import base option list gmap strings pretty.

Open Scope Z_scope.

(** ** Python string methods (ASCII fragment) *)

Module PyStr.

Definition code (c : ascii) : N := N_of_ascii c.

Definition is_upper (c : ascii) : bool := ((65 <=? code c) && (code c <=? 90))%N.
Definition is_lower (c : ascii) : bool := ((97 <=? code c) && (code c <=? 122))%N.
Definition is_digit (c : ascii) : bool := ((48 <=? code c) && (code c <=? 57))%N.

(** [str.isspace] on ASCII: TAB, LF, VT, FF, CR, FS, GS, RS, US, SPACE. *)
Definition is_space (c : ascii) : bool :=
  (((9 <=? code c) && (code c <=? 13)) || ((28 <=? code c) && (code c <=? 32)))%N.

Definition lower_char (c : ascii) : ascii :=
  if is_upper c then ascii_of_N (code c + 32) else c.
Definition upper_char (c : ascii) : ascii :=
  if is_lower c then ascii_of_N (code c - 32) else c.

Fixpoint map (f : ascii -> ascii) (s : string) : string :=
  match s with
  | EmptyString => EmptyString
  | String c s' => String (f c) (map f s')
  end.

(** [s.lower()], [s.upper()] *)
Definition lower : string -> string := map lower_char.
Definition upper : string -> string := map upper_char.

Fixpoint lstrip (s : string) : string :=
  match s with
  | EmptyString => EmptyString
  | String c s' => if is_space c then lstrip s' else s
  end.

Fixpoint rstrip (s : string) : string :=
  match s with
  | EmptyString => EmptyString
  | String c s' =>
      match rstrip s' with
      | EmptyString => if is_space c then EmptyString else String c EmptyString
      | r => String c r
      end
  end.

(** [s.strip()] *)
Definition strip (s : string) : string := rstrip (lstrip s).

(** [needle in hay] *)
Fixpoint contains (needle hay : string) : bool :=
  String.prefix needle hay ||
  match hay with
  | EmptyString => false
  | String _ hay' => contains needle hay'
  end.

(** [any(w in s for w in words)] *)
Definition any_in (words : list string) (s : string) : bool :=
  existsb (fun w => contains w s) words.

(** [s[:n]] for [0 <= n] *)
Definition take (n : nat) (s : string) : string := String.substring 0 n s.

(** [s.endswith(suffix)]: some tail of [s] is [suffix]. *)
Fixpoint endswith (s suffix : string) : bool :=
  String.eqb s suffix ||
  match s with
  | EmptyString => false
  | String _ s' => endswith s' suffix
  end.

(** [s[:-k]] for [0 < k] *)
Definition drop_last (k : nat) (s : string) : string :=
  take (String.length s - k) s.

(** [s.replace(old, new)]: every non-overlapping occurrence, leftmost
    first.  [skip] counts the characters of the occurrence just replaced
    that are still to be passed over. *)
Fixpoint replace_go (old new : string) (skip : nat) (s : string) : string :=
  match s with
  | EmptyString => EmptyString
  | String c s' =>
      match skip with
      | S n => replace_go old new n s'
      | O =>
          if String.prefix old s
          then new +:+ replace_go old new (String.length old - 1) s'
          else String c (replace_go old new 0 s')
      end
  end.

Fixpoint intersperse (new : string) (s : string) : string :=
  match s with
  | EmptyString => EmptyString
  | String c s' => String c (new +:+ intersperse new s')
  end.

Definition replace (old new s : string) : string :=
  match old with
  | EmptyString => new +:+ intersperse new s
  | _ => replace_go old new 0 s
  end.

End PyStr.


(** ** The fragment of Python regular expressions that [rules.py] uses:
    a sequence of [\d] and literal characters *)

Module PyRe.

Inductive item : Type :=
| Digit
| Lit (c : ascii).

Definition item_ok (i : item) (c : ascii) : bool :=
  match i with
  | Digit => PyStr.is_digit c
  | Lit l => Ascii.eqb l c
  end.

(** the whole of [s] matches the sequence [p] *)
Fixpoint fullmatch (p : list item) (s : string) : bool :=
  match p, s with
  | [], EmptyString => true
  | i :: p', String c s' => item_ok i c && fullmatch p' s'
  | _, _ => false
  end.

Definition lits (s : string) : list item :=
  List.map Lit (String.list_ascii_of_string s).

End PyRe.

(** ** Python numbers *)

Module PyNum.

(** [a < b] and [a <= b], as booleans; Python compares numbers exactly. *)
Definition ltb (a b : Q) : bool := negb (Qle_bool b a).
Definition leb (a b : Q) : bool := Qle_bool a b.

(** [max(a, b)] and [min(a, b)]: the first argument stays unless the
    second is strictly better. *)
Definition max (a b : Q) : Q := if ltb a b then b else a.
Definition min (a b : Q) : Q := if ltb b a then b else a.

(** *** binary64 *)

Definition pow2 (k : Z) : Q := Qpower 2 k.

(** [floor(log2 x)] for [0 < x] *)
Definition ilog2 (x : Q) : Z :=
  let k := Z.log2 (Qnum x) - Z.log2 (Z.pos (Qden x)) in
  if Qle_bool (pow2 k) x then k else k - 1.

(** The exponent of the last bit of the 53-bit significand of [x];
    [-1074] is the exponent of the smallest subnormal. *)
Definition quantum (x : Q) : Z := Z.max (ilog2 (Qabs x) - 52) (-1074).

(** The integer nearest to [q], ties to even. *)
Definition round_half_even (q : Q) : Z :=
  let f := Qfloor q in
  match Qcompare (q - inject_Z f) (1 # 2) with
  | Lt => f
  | Gt => f + 1
  | Eq => if Z.even f then f else f + 1
  end.

(** The binary64 number nearest to [x], ties to even: what a float
    literal denotes and what every float operation returns for the exact
    result [x].  Overflow is out of reach of the scores and the hours
    computed here and is not modelled. *)
Definition fl (x : Q) : Q :=
  if Qeq_bool x 0 then 0%Q
  else (inject_Z (round_half_even (x / pow2 (quantum x))) * pow2 (quantum x))%Q.

(** [a + b], [a - b], [a * b], [a / b] on floats, and [a / b] on integers *)
Definition add (a b : Q) : Q := fl (a + b).
Definition sub (a b : Q) : Q := fl (a - b).
Definition mul (a b : Q) : Q := fl (a * b).
Definition div (a b : Q) : Q := fl (a / b).

(** [sum(xs)]: a left fold of additions that starts from the integer [0],
    as CPython computes it up to version 3.11 (later versions carry a
    compensation term for the rounding errors along). *)
Definition sum (xs : list Q) : Q := fold_left add xs 0%Q.

(** [x] rounded to [ndigits] decimals, ties to even. *)
Definition decimal_round (x : Q) (ndigits : nat) : Q :=
  let scale := Pos.pow 10 (Pos.of_nat ndigits) in
  let scale := match ndigits with O => 1%positive | _ => scale end in
  Qmake (round_half_even (x * inject_Z (Z.pos scale))) scale.

(** [round(x, ndigits)]: the float nearest to that decimal. *)
Definition round (x : Q) (ndigits : nat) : Q := fl (decimal_round x ndigits).

(** [int(x)]: truncation towards zero. *)
Definition int (x : Q) : Z := Z.quot (Qnum x) (Z.pos (Qden x)).

End PyNum.

(** ** [datetime]: the proleptic Gregorian calendar of the Python library *)

Module DateTime.

Record datetime : Type := mkDateTime {
  year : Z; month : Z; day : Z; hour : Z; minute : Z; second : Z
}.

Definition is_leap (y : Z) : bool :=
  (y mod 4 =? 0) && (negb (y mod 100 =? 0) || (y mod 400 =? 0)).

Definition days_in_month (y m : Z) : Z :=
  if m =? 2 then (if is_leap y then 29 else 28)
  else if (m =? 4) || (m =? 6) || (m =? 9) || (m =? 11) then 30
  else 31.

Definition days_before_year (y : Z) : Z :=
  let y1 := y - 1 in y1 * 365 + y1 / 4 - y1 / 100 + y1 / 400.

Definition days_before_month (y m : Z) : Z :=
  nth (Z.to_nat (m - 1)) [0; 31; 59; 90; 120; 151; 181; 212; 243; 273; 304; 334] 0
  + (if (2 <? m) && is_leap y then 1 else 0).

(** ordinal of a date, 0001-01-01 being day 1 *)
Definition ymd2ord (y m d : Z) : Z :=
  days_before_year y + days_before_month y m + d.

(** ordinal of 1970-01-01 *)
Definition epoch_ord : Z := 719163.

(** microseconds since the Unix epoch of an aware UTC datetime *)
Definition to_micros (t : datetime) : Z :=
  ((ymd2ord (year t) (month t) (day t) - epoch_ord) * 86400
   + hour t * 3600 + minute t * 60 + second t) * 1000000.

(** The range checks of the [datetime] constructor, in its order; the
    message is the one CPython raises. *)
Definition check_fields (t : datetime) : option string :=
  if negb ((1 <=? year t) && (year t <=? 9999)) then
    Some ("year " +:+ pretty (year t) +:+ " is out of range")
  else if negb ((1 <=? month t) && (month t <=? 12)) then
    Some "month must be in 1..12"
  else if negb ((1 <=? day t) && (day t <=? days_in_month (year t) (month t))) then
    Some "day is out of range for month"
  else if negb ((0 <=? hour t) && (hour t <=? 23)) then
    Some "hour must be in 0..23"
  else if negb ((0 <=? minute t) && (minute t <=? 59)) then
    Some "minute must be in 0..59"
  else if negb ((0 <=? second t) && (second t <=? 59)) then
    Some "second must be in 0..59"
  else None.

Definition digit_val (c : ascii) : Z := Z.of_N (PyStr.code c) - 48.

(** value of a run of decimal digits *)
Definition number (s : string) : Z :=
  fold_left (fun acc c => acc * 10 + digit_val c) (String.list_ascii_of_string s) 0.

(** [s[i:i+n]] *)
Definition slice (i n : nat) (s : string) : string := String.substring i n s.

(** [dddd-dd-ddTdd:dd:dd] *)
Definition date_time_pattern : list PyRe.item :=
  [ PyRe.Digit; PyRe.Digit; PyRe.Digit; PyRe.Digit; PyRe.Lit "-";
    PyRe.Digit; PyRe.Digit; PyRe.Lit "-"; PyRe.Digit; PyRe.Digit; PyRe.Lit "T";
    PyRe.Digit; PyRe.Digit; PyRe.Lit ":"; PyRe.Digit; PyRe.Digit; PyRe.Lit ":";
    PyRe.Digit; PyRe.Digit ]%char.

Definition fields (s : string) : datetime :=
  mkDateTime (number (slice 0 4 s)) (number (slice 5 2 s)) (number (slice 8 2 s))
             (number (slice 11 2 s)) (number (slice 14 2 s)) (number (slice 17 2 s)).

(** [datetime.fromisoformat(s)] on the strings [_parse_iso_z] hands it:
    [YYYY-MM-DDTHH:MM:SS+00:00].  [inl] carries the message of the
    [ValueError]. *)
Definition fromisoformat (s : string) : string + datetime :=
  if PyRe.fullmatch (date_time_pattern ++ PyRe.lits "+00:00") s then
    match check_fields (fields s) with
    | Some msg => inl msg
    | None => inr (fields s)
    end
  else inl ("Invalid isoformat string: '" +:+ s +:+ "'").

End DateTime.

(** ** Python lists *)

Module PyList.

(** [list.sort] is stable.  [before x y] says that [x], which stood in
    front of [y], may stay in front of it. *)
Fixpoint insert_by {A} (before : A -> A -> bool) (x : A) (l : list A) : list A :=
  match l with
  | [] => [x]
  | y :: l' => if before x y then x :: l else y :: insert_by before x l'
  end.

Definition stable_sort {A} (before : A -> A -> bool) (l : list A) : list A :=
  foldr (insert_by before) [] l.

(** [zip(xs, ys, zs)] stops with the shortest argument. *)
Fixpoint zip3 {A B C} (xs : list A) (ys : list B) (zs : list C) : list (A * B * C) :=
  match xs, ys, zs with
  | x :: xs', y :: ys', z :: zs' => (x, y, z) :: zip3 xs' ys' zs'
  | _, _, _ => []
  end.

End PyList.

(** ** The world the handlers run in *)

(** A stored policy clause: Chroma hands back [None] for a document or a
    metadata dict that was not stored; [ingest_policy.run] writes the
    metadata [{"source": src, "label": label}] with [label] a string or
    [None]. *)
Record PolicyEntry : Type := mkPolicyEntry {
  pe_document : option string;
  pe_metadata : option (gmap string (option string))
}.

Inductive MetaValue : Type :=
| MStr (s : string)
| MInt (z : Z).

(** A stored precedent case. *)
Record PrecedentEntry : Type := mkPrecedentEntry {
  pr_id : string;
  pr_document : string;
  pr_metadata : gmap string MetaValue
}.

(** [data/precedent.json]: absent, present but not parseable, or a document
    of the shape [{tag: {"allow": int, "deny": int}}]. *)
Inductive FileState : Type :=
| Missing
| Unreadable
| Counters (data : gmap string (gmap string Z)).

(** Evidence lookups, recorded in the order they are made. *)
Inductive Lookup : Type :=
| PolicyQuery (query_text : string) (n_results : positive)
| PrecedentQuery (query_text : string) (n_results : positive).

Record World : Type := mkWorld {
  clock_reads : nat;                    (* readings of the wall clock so far *)
  uuid_draws : nat;                     (* ids drawn so far *)
  policy_col : list PolicyEntry;        (* collection "PolicyDoc" *)
  prec_col : list PrecedentEntry;       (* collection "PrecedentCases" *)
  precedent_json : FileState;           (* data/precedent.json *)
  lookups : list Lookup
}.

(** An evidence hit, as [_to_policy_hits] builds it. *)
Record Hit : Type := mkHit {
  document : string;
  metadata : gmap string (option string);
  similarity : Q;
  source : option string
}.

(** What the process is started with and cannot change. *)
Record Env : Type := mkEnv {
  (* os.getenv("EZ_DEMO_NOW_UTC") at import time *)
  demo_now : option string;
  (* the n-th reading of the wall clock, in microseconds since the epoch *)
  clock : nat -> Z;
  (* the n-th id of uuid.uuid4() *)
  uuid4 : nat -> string;
  (* cosine distance between a query text and a stored clause under the
     embedding model *)
  distance : string -> PolicyEntry -> Q;
  (* the function [app.precedent.query_precedent] would be, were it defined *)
  query_precedent : list PrecedentEntry -> string -> positive -> list Hit
}.

(** Exceptions that the source raises and catches. *)
Inductive exn : Type :=
| ValueError (msg : string).

(** Computations: they may raise, and they thread the world. *)
Definition M (A : Type) : Type := World -> (exn + A) * World.

Definition ret {A} (a : A) : M A := fun w => (inr a, w).
Definition raise {A} (e : exn) : M A := fun w => (inl e, w).
Definition bind {A B} (c : M A) (k : A -> M B) : M B :=
  fun w => match c w with
           | (inr a, w') => k a w'
           | (inl e, w') => (inl e, w')
           end.
Definition lift {A} (r : exn + A) : M A := fun w => (r, w).
Definition get_world : M World := fun w => (inr w, w).

Notation "'let*' x ':=' c 'in' k" := (bind c (fun x => k))
  (at level 10, x name, c at level 100, k at level 200, only parsing).

(** [datetime.now(timezone.utc)] and [time.time()] read the wall clock. *)
Definition read_clock (env : Env) : M Z :=
  fun w => (inr (clock env (clock_reads w)),
            mkWorld (S (clock_reads w)) (uuid_draws w) (policy_col w) (prec_col w)
                    (precedent_json w) (lookups w)).

(** [str(uuid.uuid4())] *)
Definition draw_uuid (env : Env) : M string :=
  fun w => (inr (uuid4 env (uuid_draws w)),
            mkWorld (clock_reads w) (S (uuid_draws w)) (policy_col w) (prec_col w)
                    (precedent_json w) (lookups w)).

Definition record_lookup (l : Lookup) : M unit :=
  fun w => (inr tt,
            mkWorld (clock_reads w) (uuid_draws w) (policy_col w) (prec_col w)
                    (precedent_json w) (lookups w ++ [l])).

(** ** [app/rules.py] *)

Module Rules.
Section Rules.
Variable env : Env.

(** [^\d{4}-\d{2}-\d{2}T\d{2}:\d{2}:\d{2}Z$] *)
Definition ISO_Z_RE : list PyRe.item :=
  DateTime.date_time_pattern ++ [PyRe.Lit "Z"%char].

(** [ISO_Z_RE.match(s)]: in a Python pattern [$] matches at the end of
    the string and also just before a final newline. *)
Definition ISO_Z_RE_match (s : string) : bool :=
  PyRe.fullmatch ISO_Z_RE s || PyRe.fullmatch (ISO_Z_RE ++ [PyRe.Lit "010"%char]) s.

(** [rules.py], [_parse_iso_z] *)
Definition _parse_iso_z (s : string) : exn + DateTime.datetime :=
  if String.eqb s "" then
    inl (ValueError "Empty deadline string. Expected 'YYYY-MM-DDTHH:MM:SSZ'.")
  else
    let s := PyStr.upper (PyStr.strip s) in
    let s := if PyStr.endswith s "+00:00" then PyStr.drop_last 6 s +:+ "Z" else s in
    if negb (ISO_Z_RE_match s) then
      inl (ValueError ("Bad ISO timestamp '" +:+ s +:+ "'. Expected 'YYYY-MM-DDTHH:MM:SSZ'."))
    else
      match DateTime.fromisoformat (PyStr.replace "Z" "+00:00" s) with
      | inl msg => inl (ValueError msg)
      | inr t => inr t
      end.

(** [now_utc]: [_DEMO_NOW], when set and not empty, is parsed at every
    call; otherwise the wall clock is read. *)
Definition now_utc : M Z :=
  match demo_now env with
  | Some (String c d) => lift (match _parse_iso_z (String c d) with
                               | inl e => inl e
                               | inr t => inr (DateTime.to_micros t)
                               end)
  | _ => read_clock env
  end.

(** [(dl - now).total_seconds() / 3600.0] *)
Definition hours_between (dl now : Z) : Q :=
  PyNum.div (PyNum.div (inject_Z (dl - now)) 1000000) 3600.

Definition hours_to_deadline (deadline_iso : string) (now : option Z) : M Q :=
  let* now := match now with
              | None => now_utc
              | Some n => ret n
              end in
  let* dl := lift (_parse_iso_z deadline_iso) in
  ret (hours_between (DateTime.to_micros dl) now).

Definition auto_approve_beyond_48h (deadline_iso : string) (now : option Z)
  : M (bool * Q) :=
  let* h := hours_to_deadline deadline_iso now in
  ret (PyNum.ltb 48 h, h).

(** The descriptor of [deadline_meta]; the two instants are kept as
    values, the source prints them in ISO form. *)
Record DeadlineMeta : Type := mkDeadlineMeta {
  dm_now_utc : Z;
  dm_deadline_utc : DateTime.datetime;
  dm_hours_to_deadline : Q;
  dm_within_48h : bool;
  dm_beyond_48h : bool
}.

Definition deadline_meta (deadline_iso : string) : M DeadlineMeta :=
  let* now := now_utc in
  let* h := hours_to_deadline deadline_iso (Some now) in
  let* dl := lift (_parse_iso_z deadline_iso) in
  ret (mkDeadlineMeta now dl (PyNum.round h 1)
         (PyNum.leb 0 h && PyNum.leb h 48) (PyNum.ltb 48 h)).

End Rules.
End Rules.


(** ** [app/rag.py] *)

Module Rag.
Section Rag.
Variable env : Env.

Definition MIN_CONF : Q := PyNum.fl 0.60.
Definition PRECEDENT_WEIGHT : Q := PyNum.fl 0.35.

(** The names that [app/precedent.py] binds at module level. *)
Definition precedent_module : list string :=
  [ "annotations"; "json"; "uuid"; "pathlib"; "time"; "Optional"; "Dict"; "Any";
    "chromadb"; "embedding_functions"; "CHROMA_DIR"; "PRECEDENT_JSON";
    "PRECEDENT_COLLECTION"; "embedding_fn"; "_client"; "_prec_col";
    "_safe_load_json"; "_safe_write_json"; "_infer_tag"; "record_precedent" ].

(** [from app.precedent import name] succeeds when the module binds [name]. *)
Definition can_import (name : string) : bool :=
  bool_decide (name ∈ precedent_module).

(** The [try] block at import time: both imports succeed, or the [except]
    branch binds the stub. *)
Definition precedent_imported : bool :=
  can_import "query_precedent" && can_import "PRECEDENT_JSON".

(** [rag.py], lines 29 to 37 *)
Definition _precedent_query (reason_text : string) (k : positive) : M (list Hit) :=
  if precedent_imported then
    let* w := get_world in
    ret (query_precedent env (prec_col w) reason_text k)
  else
    ret [].

(** [rag.py], [tag_reason]: the Tagging component *)
Definition tag_reason (raw : string) : string :=
  let s := PyStr.lower raw in
  if PyStr.any_in ["bereavement"; "passed away"; "funeral"; "death"] s then
    "bereavement"
  else if PyStr.any_in ["hospital"; "hospitalized"; "surgery"; "broken wrist"; "injury"] s then
    "serious_injury"
  else if PyStr.any_in ["flu"; "cold"; "common cold"] s then
    "minor_illness"
  else if PyStr.any_in ["vacation"; "travel"; "trip"; "holiday"] s then
    "travel"
  else "other".

Definition _load_precedent_stats (tag : string) : M (gmap string Z) :=
  let* w := get_world in
  ret (match precedent_json w with
       | Counters data => default ∅ (data !! tag)
       | Unreadable => ∅
       | Missing => ∅
       end).

Definition normalize_reason (t : string) : string :=
  let t := PyStr.lower t in
  PyStr.replace "flu" "common cold minor illness"
    (PyStr.replace "grandfather" "family member"
      (PyStr.replace "funeral" "death bereavement"
        (PyStr.replace "passed away" "death bereavement" t))).

(** The answer of [col.query] for one query text. *)
Record QueryResult : Type := mkQueryResult {
  documents : list (option string);
  metadatas : list (option (gmap string (option string)));
  distances : list Q
}.

(** [col.query(query_texts=[q], n_results=k, include=[...])]: Chroma
    answers with the [k] stored entries nearest to [q], nearest first, and
    with all of them when fewer are stored. *)
Definition col_query (col : list PolicyEntry) (query_text : string) (n_results : positive)
  : QueryResult :=
  let nearest :=
    firstn (Pos.to_nat n_results)
      (PyList.stable_sort
         (fun a b => PyNum.leb (distance env query_text a) (distance env query_text b))
         col) in
  mkQueryResult (map pe_document nearest) (map pe_metadata nearest)
                (map (distance env query_text) nearest).

(** cosine distance -> similarity *)
Definition to_similarity (dist : Q) : Q :=
  PyNum.max 0 (PyNum.min 1 (PyNum.sub 1 (PyNum.fl dist))).

Definition to_hit (row : option string * option (gmap string (option string)) * Q) : Hit :=
  let '(doc, meta, dist) := row in
  let meta := default ∅ meta in
  mkHit (default "" doc) meta (to_similarity dist)
        (match meta !! "source" with
         | Some v => v
         | None => Some "policy"
         end).

(** [rag.py], [_to_policy_hits] *)
Definition _to_policy_hits (col : list PolicyEntry) (query_text : string) (k : positive)
  : list Hit :=
  let res := col_query col query_text k in
  let hits := map to_hit (PyList.zip3 (documents res) (metadatas res) (distances res)) in
  PyList.stable_sort (fun a b => PyNum.leb (similarity b) (similarity a)) hits.

(** [(h["metadata"].get(key) or "").lower()] *)
Definition meta_lower (h : Hit) (key : string) : string :=
  PyStr.lower (match metadata h !! key with
               | Some (Some v) => v
               | _ => ""
               end).

Definition deny_cues : list string :=
  ["not sufficient"; "not valid"; "deny"; "insufficient"; "not acceptable"].
Definition allow_cues : list string :=
  ["bereavement"; "death"; "immediate family"; "hospital"; "serious injury"; "broken wrist"].

Record Strong : Type := mkStrong {
  strong_recommend : string;
  strong_confidence : Q
}.

(** One turn of the loop of [_strong_cue_decision] over the flags
    [(strong_deny, strong_allow)]. *)
Definition strong_cue_step (min_sim : Q) (flags : bool * bool) (h : Hit) : bool * bool :=
  let '(strong_deny, strong_allow) := flags in
  let sim := similarity h in
  let label := meta_lower h "label" in
  let text := PyStr.lower (document h) in
  let strong_deny :=
    if String.eqb label "deny" && PyNum.leb min_sim sim && PyStr.any_in deny_cues text
    then true else strong_deny in
  let strong_allow :=
    if String.eqb label "allow" && PyNum.leb min_sim sim && PyStr.any_in allow_cues text
    then true else strong_allow in
  (strong_deny, strong_allow).

(** [rag.py], [_strong_cue_decision] *)
Definition _strong_cue_decision (policy_hits : list Hit) (min_sim : Q) : option Strong :=
  let '(strong_deny, strong_allow) :=
    fold_left (strong_cue_step min_sim) policy_hits (false, false) in
  if strong_deny && negb strong_allow then
    Some (mkStrong "deny" (PyNum.max min_sim (PyNum.fl 0.65)))
  else if strong_allow && negb strong_deny then
    Some (mkStrong "approve" (PyNum.max min_sim (PyNum.fl 0.65)))
  else None.

(** [sum(h["similarity"] for h in hits if (h["metadata"].get(key) or "").lower() == value)] *)
Definition vote (hits : list Hit) (key value : string) : Q :=
  PyNum.sum (map similarity (filter (fun h => meta_lower h key = value) hits)).

Record Evidence : Type := mkEvidence {
  ev_source : option string;
  ev_label : option string;
  ev_similarity : Q;
  ev_snippet : string
}.

Record PrecedentInfo : Type := mkPrecedentInfo {
  p_tag : string;
  p_stats : gmap string Z;
  p_allow_rate : Q;
  p_hint : string
}.

Record Payload : Type := mkPayload {
  decision : string;
  via : string;
  recommend : option string;
  confidence : Q;
  explanation : string;
  evidence : list Evidence;
  precedent : PrecedentInfo
}.

(** Step 3 of [policy_lookup]: the blended scores. *)
Definition allow_score (policy_hits precedent_hits : list Hit) : Q :=
  PyNum.add (PyNum.mul (PyNum.sub 1 PRECEDENT_WEIGHT) (vote policy_hits "label" "allow"))
            (PyNum.mul PRECEDENT_WEIGHT (vote precedent_hits "outcome" "allow")).

Definition deny_score (policy_hits precedent_hits : list Hit) : Q :=
  PyNum.add (PyNum.mul (PyNum.sub 1 PRECEDENT_WEIGHT) (vote policy_hits "label" "deny"))
            (PyNum.mul PRECEDENT_WEIGHT (vote precedent_hits "outcome" "deny")).

Definition total_score (policy_hits precedent_hits : list Hit) : Q :=
  PyNum.add (allow_score policy_hits precedent_hits) (deny_score policy_hits precedent_hits).

Definition vote_confidence (policy_hits precedent_hits : list Hit) : Q :=
  let total := total_score policy_hits precedent_hits in
  if PyNum.ltb 0 total then
    PyNum.div (PyNum.max (allow_score policy_hits precedent_hits)
                         (deny_score policy_hits precedent_hits)) total
  else 0%Q.

(** Step 4: the final [(conf, recommend)]. *)
Definition final_decision (strong : option Strong) (policy_hits precedent_hits : list Hit)
  : Q * option string :=
  let allow_score := allow_score policy_hits precedent_hits in
  let deny_score := deny_score policy_hits precedent_hits in
  let total := total_score policy_hits precedent_hits in
  let conf := vote_confidence policy_hits precedent_hits in
  match strong with
  | Some strong => (PyNum.max conf (strong_confidence strong), Some (strong_recommend strong))
  | None =>
      (conf,
       if PyNum.ltb conf MIN_CONF || PyNum.leb total (PyNum.fl (1 # 1000000000)) then None
       else Some (if PyNum.leb deny_score allow_score then "approve" else "deny"))
  end.

(** Step 5: the top policy hit only. *)
Definition format_evidence (policy_hits : list Hit) : list Evidence :=
  match policy_hits with
  | [] => []
  | h :: _ =>
      [ mkEvidence
          (source h)
          (match metadata h !! "label" with
           | Some (Some l) => if String.eqb l "" then None else Some l
           | _ => None
           end)
          (PyNum.round (similarity h) 3)
          (PyStr.take 300 (document h)
           +:+ (if (300 <? String.length (document h))%nat then "..." else "")) ]
  end.

(** Step 6: the aggregate precedent statistics of the tag. *)
Definition precedent_info (tag : string) (stats : gmap string Z) : PrecedentInfo :=
  let allow := default 0 (stats !! "allow") in
  let deny := default 0 (stats !! "deny") in
  let total_cases := allow + deny in
  let allow_rate :=
    if total_cases =? 0 then 0%Q else PyNum.div (inject_Z allow) (inject_Z total_cases) in
  mkPrecedentInfo tag stats (PyNum.round allow_rate 3)
    (if PyNum.leb (PyNum.fl 0.6) allow_rate then "Historically approved in similar cases."
     else if PyNum.leb allow_rate (PyNum.fl 0.4) then "Historically denied in similar cases."
     else "Mixed precedent.").

(** Steps 3 to 6 of [policy_lookup], on the hits and the statistics that
    the retrieval steps produced. *)
Definition build_payload (tag : string) (policy_hits : list Hit) (strong : option Strong)
    (precedent_hits : list Hit) (stats : gmap string Z) : Payload :=
  let '(conf, recommend) := final_decision strong policy_hits precedent_hits in
  mkPayload
    (match recommend with Some _ => "recommendation" | None => "needs_review" end)
    (match recommend with Some _ => "policy_rag" | None => "policy_rag_low_conf" end)
    recommend
    (PyNum.round conf 3)
    (match recommend with
     | Some _ => "Policy + precedent similarity blend with similarity-weighted voting."
     | None => "Evidence not decisive; escalate to reviewer."
     end)
    (format_evidence policy_hits)
    (precedent_info tag stats).

(** [rag.py], [policy_lookup]: steps 1 and 2, then [build_payload]. *)
Definition policy_lookup (reason_text : string) (k : positive) : M Payload :=
  let tag := tag_reason reason_text in
  let q := normalize_reason reason_text in
  let* w := get_world in
  let* _ := record_lookup (PolicyQuery q k) in
  let policy_hits := _to_policy_hits (policy_col w) q k in
  let strong := _strong_cue_decision policy_hits (PyNum.fl 0.58) in
  let* _ := record_lookup (PrecedentQuery q 5) in
  let* precedent_hits := _precedent_query q 5 in
  let* stats := _load_precedent_stats tag in
  ret (build_payload tag policy_hits strong precedent_hits stats).

End Rag.
End Rag.

(** ** [app/precedent.py] *)

Module Precedent.
Section Precedent.
Variable env : Env.

Definition _safe_load_json : M (gmap string (gmap string Z)) :=
  let* w := get_world in
  ret (match precedent_json w with
       | Counters data => data
       | Unreadable => ∅
       | Missing => ∅
       end).

Definition _safe_write_json (data : gmap string (gmap string Z)) : M unit :=
  fun w => (inr tt,
            mkWorld (clock_reads w) (uuid_draws w) (policy_col w) (prec_col w)
                    (Counters data) (lookups w)).

(** [precedent.py], [_infer_tag] *)
Definition _infer_tag (reason_text : string) : string :=
  let s := PyStr.lower reason_text in
  if PyStr.any_in ["bereavement"; "passed away"; "funeral"; "death"] s then
    "bereavement"
  else if PyStr.any_in ["flu"; "cold"; "common cold"] s then
    "minor_illness"
  else if PyStr.any_in ["hospital"; "injury"; "broken wrist"; "surgery"] s then
    "serious_injury"
  else if PyStr.any_in ["vacation"; "travel"; "trip"; "holiday"] s then
    "travel"
  else "other".

(** [_prec_col.add(ids=[id], documents=[doc], metadatas=[m])] *)
Definition col_add (id doc : string) (m : gmap string MetaValue) : M unit :=
  fun w => (inr tt,
            mkWorld (clock_reads w) (uuid_draws w) (policy_col w)
                    (prec_col w ++ [mkPrecedentEntry id doc m])
                    (precedent_json w) (lookups w)).

(** [precedent.py], [record_precedent] *)
Definition record_precedent (reason_text_raw : string) (outcome : string)
    (meta : option (gmap string MetaValue)) (tag : option string)
    (reason_text_norm : option string) : M unit :=
  let outcome := PyStr.strip (PyStr.lower outcome) in
  let outcome := if String.eqb outcome "approve" then "allow" else outcome in
  let outcome := if String.eqb outcome "reject" then "deny" else outcome in
  if negb (String.eqb outcome "allow" || String.eqb outcome "deny") then
    raise (ValueError "outcome must be 'allow' or 'deny'")
  else
    let tag := match tag with
               | Some (String c t) => String c t
               | _ => _infer_tag reason_text_raw
               end in
    let* now := read_clock env in
    let ts := PyNum.int (PyNum.div (inject_Z now) 1000000) in
    let m : gmap string MetaValue :=
      <["ts" := MInt ts]>
      (<["norm" := MStr (PyStr.strip (default "" reason_text_norm))]>
      (<["raw" := MStr reason_text_raw]>
      (<["tag" := MStr tag]>
      (<["outcome" := MStr outcome]>
      (<["type" := MStr "precedent"]> ∅))))) in
    let m := match meta with
             | Some meta => meta ∪ m
             | None => m
             end in
    let* id := draw_uuid env in
    let* _ := col_add id reason_text_raw m in
    let* counters := _safe_load_json in
    let row := default (<["deny" := 0]> (<["allow" := 0]> ∅)) (counters !! tag) in
    let row := <[outcome := default 0 (row !! outcome) + 1]> row in
    let counters := <[tag := row]> counters in
    _safe_write_json counters.

End Precedent.
End Precedent.

(** ** [app/main.py] *)

Module Main.
Section Main.
Variable env : Env.

(** [f"{x:.1f}"] *)
Definition format_1f (x : Q) : string :=
  let tenths := PyNum.round_half_even (x * 10) in
  (if tenths <? 0 then "-" else "")
  +:+ pretty (Z.abs tenths / 10) +:+ "." +:+ pretty (Z.abs tenths mod 10).

(** The reply of the rule path. *)
Record AutoApprove : Type := mkAutoApprove {
  auto_decision : string;
  auto_via : string;
  auto_confidence : Q;
  auto_explanation : string;
  auto_deadline_meta : Rules.DeadlineMeta
}.

(** The replies of Decide: the 400 error, the dict of the rule path, the
    payload of [policy_lookup] with [deadline_meta] added, and an
    exception that no handler catches. *)
Inductive Response : Type :=
| ErrorResponse (status_code : Z) (error message : string)
| RuleResponse (body : AutoApprove)
| LookupResponse (pol : Rag.Payload) (deadline_meta : Rules.DeadlineMeta)
| Unhandled (e : exn).

(** [main.py], [POST /request]: the Decide operation *)
Definition submit_request (deadline_iso : string) (days_requested : Z)
    (reason_text : string) : World -> Response * World :=
  fun w =>
    match (let* dl_meta := Rules.deadline_meta env deadline_iso in
           let* approve := Rules.auto_approve_beyond_48h env deadline_iso None in
           ret (dl_meta, approve)) w with
    | (inl (ValueError msg), w) =>
        (ErrorResponse 400 "invalid_deadline_iso" msg, w)
    | (inr (dl_meta, (beyond48, hours_left)), w) =>
        if beyond48 : bool then
          (RuleResponse
             (mkAutoApprove "approve" "rule_beyond_48h" 1
                (format_1f hours_left +:+ "h to deadline (> 48h) → auto-approve.")
                dl_meta), w)
        else
          match Rag.policy_lookup env reason_text 5 w with
          | (inr pol, w) => (LookupResponse pol dl_meta, w)
          | (inl e, w) => (Unhandled e, w)
          end
    end.

Inductive ReviewResponse : Type :=
| ReviewRejected (status_code : Z) (error : string)
| ReviewStored (tag outcome : string)
| ReviewUnhandled (e : exn).

(** [main.py], [POST /review]: the RecordReview operation *)
Definition review_request (deadline_iso : string) (days_requested : Z)
    (reason_text outcome reviewer : string) : World -> ReviewResponse * World :=
  fun w =>
    let outcome := PyStr.strip (PyStr.lower outcome) in
    let outcome := if String.eqb outcome "approve" then "allow" else outcome in
    let outcome := if String.eqb outcome "reject" then "deny" else outcome in
    if negb (String.eqb outcome "allow" || String.eqb outcome "deny") then
      (ReviewRejected 400 "Outcome must be allow/deny", w)
    else
      let norm := Rag.normalize_reason reason_text in
      let tag := Rag.tag_reason reason_text in
      let meta : gmap string MetaValue :=
        <["reviewer" := MStr reviewer]>
        (<["days_requested" := MInt days_requested]>
        (<["deadline_iso" := MStr deadline_iso]> ∅)) in
      match Precedent.record_precedent env reason_text outcome (Some meta) (Some tag)
              (Some norm) w with
      | (inr _, w) => (ReviewStored tag outcome, w)
      | (inl e, w) => (ReviewUnhandled e, w)
      end.

End Main.
End Main.


(** ** Vocabulary of the specification *)

Module Spec.

(** The grammar of a deadline: a four-digit year, two-digit month, day,
    hour, minute and second, the literal [T], and the suffix [Z] or
    [+00:00]. *)
Definition digits (n : nat) : list PyRe.item := repeat PyRe.Digit n.

Definition date_time : list PyRe.item :=
  digits 4 ++ PyRe.lits "-" ++ digits 2 ++ PyRe.lits "-" ++ digits 2 ++ PyRe.lits "T"
  ++ digits 2 ++ PyRe.lits ":" ++ digits 2 ++ PyRe.lits ":" ++ digits 2.

Definition conforms_grammar (s : string) : bool :=
  PyRe.fullmatch (date_time ++ PyRe.lits "Z") s
  || PyRe.fullmatch (date_time ++ PyRe.lits "+00:00") s.

(** The fields of a conforming string name a date and a time of day that
    exist (years 0001 to 9999). *)
Definition calendar_ok (s : string) : bool :=
  match DateTime.check_fields (DateTime.fields s) with
  | None => true
  | Some _ => false
  end.

(** An accepted deadline is a string that, trimmed and upper-cased,
    conforms to the grammar and names an existing date and time. *)
Definition accepted (d : string) : bool :=
  conforms_grammar (PyStr.upper (PyStr.strip d))
  && calendar_ok (PyStr.upper (PyStr.strip d)).

(** The frozen "now", when one is configured, is itself a timestamp that
    parses. *)
Definition frozen_now_ok (env : Env) : Prop :=
  match demo_now env with
  | Some (String c d) => exists t, Rules._parse_iso_z (String c d) = inr t
  | _ => True
  end.

(** The instant a reading of "now" yields when [reads] readings of the
    wall clock were made before it. *)
Definition now_after (env : Env) (reads : nat) : exn + Z :=
  match demo_now env with
  | Some (String c d) =>
      match Rules._parse_iso_z (String c d) with
      | inl e => inl e
      | inr t => inr (DateTime.to_micros t)
      end
  | _ => inr (clock env reads)
  end.

(** Whether "now" is frozen, and the world after one reading of "now":
    a frozen "now" leaves the wall clock alone. *)
Definition frozen (env : Env) : bool :=
  match demo_now env with
  | Some (String _ _) => true
  | _ => false
  end.

Definition tick (env : Env) (w : World) : World :=
  if frozen env then w
  else mkWorld (S (clock_reads w)) (uuid_draws w) (policy_col w) (prec_col w)
               (precedent_json w) (lookups w).

(** [hours_left] of a Decide request that arrives in world [w]: the rule
    reads "now" after [deadline_meta] has read it once. *)
Definition hours_left (env : Env) (w : World) (deadline_iso : string) : option Q :=
  match Rules._parse_iso_z deadline_iso, now_after env (S (clock_reads w)) with
  | inr dl, inr now => Some (Rules.hours_between (DateTime.to_micros dl) now)
  | _, _ => None
  end.

(** A JSON value of a reply, as far as the claims look at it. *)
Inductive JValue : Type :=
| JNull
| JStr (s : string)
| JNum (q : Q)
| JObject.

(** The keys of the reply of Decide and their values. *)
Definition response_field (r : Main.Response) (key : string) : option JValue :=
  match r with
  | Main.ErrorResponse _ error message =>
      if String.eqb key "error" then Some (JStr error)
      else if String.eqb key "message" then Some (JStr message)
      else None
  | Main.RuleResponse body =>
      if String.eqb key "decision" then Some (JStr (Main.auto_decision body))
      else if String.eqb key "via" then Some (JStr (Main.auto_via body))
      else if String.eqb key "confidence" then Some (JNum (Main.auto_confidence body))
      else if String.eqb key "explanation" then Some (JStr (Main.auto_explanation body))
      else if String.eqb key "deadline_meta" then Some JObject
      else None
  | Main.LookupResponse pol _ =>
      if String.eqb key "decision" then Some (JStr (Rag.decision pol))
      else if String.eqb key "via" then Some (JStr (Rag.via pol))
      else if String.eqb key "recommend" then
        Some (match Rag.recommend pol with Some r => JStr r | None => JNull end)
      else if String.eqb key "confidence" then Some (JNum (Rag.confidence pol))
      else if String.eqb key "explanation" then Some (JStr (Rag.explanation pol))
      else if String.eqb key "evidence" then Some JObject
      else if String.eqb key "precedent" then Some JObject
      else if String.eqb key "deadline_meta" then Some JObject
      else None
  | Main.Unhandled _ => None
  end.

(** What is stored, apart from the two counters of draws and the record
    of lookups. *)
Definition same_store (w w' : World) : Prop :=
  policy_col w' = policy_col w /\ prec_col w' = prec_col w
  /\ precedent_json w' = precedent_json w.

(** [counters[tag][outcome]] as the engine reads it: an absent file, row
    or entry counts as zero. *)
Definition counter (w : World) (tag outcome : string) : Z :=
  let data := match precedent_json w with
              | Counters data => data
              | _ => ∅
              end in
  default 0 (default ∅ (data !! tag) !! outcome).

(** A strong cue fires: some hit is at least [min_sim] similar, carries the
    label, and its text holds one of the cues. *)
Definition fires (label : string) (cues : list string) (min_sim : Q) (hits : list Hit)
  : Prop :=
  exists h, In h hits /\ Rag.meta_lower h "label" = label
            /\ (min_sim <= similarity h)%Q
            /\ exists cue, In cue cues /\ PyStr.contains cue (PyStr.lower (document h)) = true.

(** The same test on one hit, as a boolean. *)
Definition cue_hit (label : string) (cues : list string) (min_sim : Q) (h : Hit) : bool :=
  String.eqb (Rag.meta_lower h "label") label && PyNum.leb min_sim (similarity h)
  && PyStr.any_in cues (PyStr.lower (document h)).

Definition strong_deny (hits : list Hit) : Prop := fires "deny" Rag.deny_cues (PyNum.fl 0.58) hits.
Definition strong_allow (hits : list Hit) : Prop := fires "allow" Rag.allow_cues (PyNum.fl 0.58) hits.

(** A review request, and a run of them one after the other. *)
Record Review : Type := mkReview {
  rv_deadline_iso : string;
  rv_days_requested : Z;
  rv_reason_text : string;
  rv_outcome : string;
  rv_reviewer : string
}.

Definition review (env : Env) (r : Review) (w : World) : Main.ReviewResponse * World :=
  Main.review_request env (rv_deadline_iso r) (rv_days_requested r) (rv_reason_text r)
    (rv_outcome r) (rv_reviewer r) w.

Definition run_reviews (env : Env) (rs : list Review) (w : World) : World :=
  fold_left (fun w r => snd (review env r w)) rs w.

(** The request is recorded as [allow] under [tag]. *)
Definition allows (tag : string) (r : Review) : Prop :=
  Rag.tag_reason (rv_reason_text r) = tag
  /\ (PyStr.strip (PyStr.lower (rv_outcome r)) = "allow"
      \/ PyStr.strip (PyStr.lower (rv_outcome r)) = "approve").

End Spec.

(** ** Sample data *)

Module Sample.

Definition env : Env :=
  mkEnv None (fun n => 1762000000000000 + Z.of_nat n) (fun _ => "00000000-0000-4000-8000-000000000000")
        (fun _ _ => 1 # 2)%Q (fun _ _ _ => []).

(** [EZ_DEMO_NOW_UTC="2025-11-01T12:00:00Z"] *)
Definition frozen_env : Env :=
  mkEnv (Some "2025-11-01T12:00:00Z") (clock env) (uuid4 env) (distance env)
        (query_precedent env).

Definition empty_world : World := mkWorld 0 0 [] [] Missing [].

Definition deny_clause : PolicyEntry :=
  mkPolicyEntry (Some "DENY: a common cold is insufficient grounds for an extension")
                (Some (<["label" := Some "deny"]> (<["source" := Some "policy.txt"]> ∅))).

Definition allow_clause : PolicyEntry :=
  mkPolicyEntry (Some "ALLOW: bereavement in the immediate family")
                (Some (<["label" := Some "allow"]> (<["source" := Some "policy.txt"]> ∅))).

(** a policy corpus of two clauses, no precedent, no counter file *)
Definition policy_world : World :=
  mkWorld 0 0 [deny_clause; allow_clause] [] Missing [].

Definition past_case : PrecedentEntry :=
  mkPrecedentEntry "7" "My grandfather passed away"
    (<["outcome" := MStr "allow"]> (<["tag" := MStr "bereavement"]> ∅)).

(** the same corpus with a precedent on file *)
Definition busy_world : World :=
  mkWorld 3 1 [deny_clause; allow_clause] [past_case] Missing [].

Definition deny_hit : Hit :=
  mkHit "DENY: a common cold is insufficient grounds for an extension"
        (<["label" := Some "deny"]> ∅) (PyNum.fl 0.9) (Some "policy.txt").

Definition allow_hit : Hit :=
  mkHit "ALLOW: bereavement in the immediate family"
        (<["label" := Some "allow"]> ∅) (PyNum.fl 0.7) (Some "policy.txt").

Definition unlabelled_hit : Hit :=
  mkHit "Extensions are granted at the discretion of the instructor"
        (<["label" := None]> ∅) (PyNum.fl 0.8) (Some "handbook.txt").

Definition precedent_hit : Hit :=
  mkHit "My grandfather passed away" (<["outcome" := Some "allow"]> ∅) (PyNum.fl 0.6) None.

(** an environment in which a precedent query, could it be made, would
    report a perfect match *)
Definition loud_env : Env :=
  mkEnv None (clock env) (uuid4 env) (distance env)
    (fun col _ _ =>
       map (fun e => mkHit (pr_document e) (<["outcome" := Some "allow"]> ∅) 1%Q None) col).

(** an embedding model that puts a clause that allows at distance 0.1 of
    every query and any other clause at distance 0.6 *)
Definition ranked_env : Env :=
  mkEnv None (clock env) (uuid4 env)
    (fun _ e => match pe_document e with
                | Some doc => if String.prefix "ALLOW" doc then 1 # 10 else 6 # 10
                | None => 1
                end)%Q
    (query_precedent env).

Definition three_allows : list Spec.Review :=
  [ Spec.mkReview "2025-11-02T00:00:00Z" 2 "My grandfather passed away" "allow" "dean";
    Spec.mkReview "2025-11-03T00:00:00Z" 5 "Death in the family, need time for funeral"
                  "Approve" "dean";
    Spec.mkReview "2025-11-04T00:00:00Z" 1 "bereavement leave" " approve " "tutor" ].

End Sample.


(** ** Vocabulary of the further properties *)

Module Obs.



Definition auto_approved (r : Main.Response) : bool :=
  match r with
  | Main.RuleResponse _ => true
  | _ => false
  end.

(** The wall clock does not run backwards. *)
Definition clock_monotone (env : Env) : Prop :=
  forall n, clock env n <= clock env (S n).

(** A wall clock that reads 12:26:39.999999 on 2025-11-01 and gains a
    microsecond with every reading. *)
Definition late_env : Env :=
  mkEnv None (fun n => 1761999999999999 + Z.of_nat n) (uuid4 Sample.env)
        (distance Sample.env) (query_precedent Sample.env).


End Obs.


(** * Properties *)

(** ** Strings *)

Section StringFacts.

Lemma append_cons (c : ascii) (a b : string) :
  String c a +:+ b = String c (a +:+ b).
Proof. reflexivity. Qed.

Lemma append_nil_l (s : string) : "" +:+ s = s.
Proof. reflexivity. Qed.


Lemma append_assoc (a b c : string) : (a +:+ b) +:+ c = a +:+ (b +:+ c).
Proof. induction a as [|x a IH]; [reflexivity|]. now rewrite !append_cons, IH. Qed.

Lemma prefix_app (n rest : string) : String.prefix n (n +:+ rest) = true.
Proof.
  induction n as [|c n IH]; [now destruct rest|].
  rewrite append_cons. cbn. destruct (ascii_dec c c); [exact IH|congruence].
Qed.

Lemma prefix_inv (n s : string) :
  String.prefix n s = true -> exists rest, s = n +:+ rest.
Proof.
  revert s. induction n as [|c n IH]; intros s H.
  - now exists s.
  - destruct s as [|d s]; [discriminate|]. cbn in H.
    destruct (ascii_dec c d) as [->|]; [|discriminate].
    destruct (IH _ H) as [rest ->]. now exists rest.
Qed.

(** [needle in hay] holds exactly when [hay] splits around [needle]. *)
Lemma contains_iff (needle hay : string) :
  PyStr.contains needle hay = true <-> exists a b, hay = a +:+ needle +:+ b.
Proof.
  split.
  - induction hay as [|c hay IH]; cbn [PyStr.contains]; intros H.
    + apply orb_true_iff in H as [H|H]; [|discriminate].
      apply prefix_inv in H as [rest H]. now exists "", rest.
    + apply orb_true_iff in H as [H|H].
      * apply prefix_inv in H as [rest H]. now exists "", rest.
      * destruct (IH H) as (a & b & ->). now exists (String c a), b.
  - intros (a & b & ->). induction a as [|c a IH].
    + change ("" +:+ needle +:+ b) with (needle +:+ b).
      destruct (needle +:+ b) eqn:E; cbn [PyStr.contains]; rewrite <- E, prefix_app; reflexivity.
    + change (String c a +:+ needle +:+ b) with (String c (a +:+ needle +:+ b)).
      cbn [PyStr.contains]. rewrite IH. apply orb_true_r.
Qed.

Lemma map_app (f : ascii -> ascii) (a b : string) :
  PyStr.map f (a +:+ b) = PyStr.map f a +:+ PyStr.map f b.
Proof.
  induction a as [|c a IH]; [reflexivity|].
  rewrite append_cons. cbn. now rewrite IH, append_cons.
Qed.

(** A needle without capitals that occurs in a text occurs in the
    lower-cased text. *)
Lemma contains_lower (needle hay : string) :
  PyStr.lower needle = needle ->
  PyStr.contains needle hay = true ->
  PyStr.contains needle (PyStr.lower hay) = true.
Proof.
  intros Hn H. apply contains_iff in H as (a & b & ->).
  apply contains_iff. exists (PyStr.lower a), (PyStr.lower b).
  unfold PyStr.lower in *. now rewrite !map_app, Hn.
Qed.

Lemma any_in_iff (words : list string) (s : string) :
  PyStr.any_in words s = true <-> exists w, In w words /\ PyStr.contains w s = true.
Proof. unfold PyStr.any_in. apply existsb_exists. Qed.

Lemma eqb_false_of_ne (a b : string) : a <> b -> String.eqb a b = false.
Proof. intros H. now apply String.eqb_neq. Qed.

End StringFacts.

(** ** Tagging *)

(** A text naming a hospital stay names a hospital. *)
Lemma hospitalized_is_hospital (s : string) :
  PyStr.contains "hospitalized" s = true -> PyStr.contains "hospital" s = true.
Proof.
  intros H. apply contains_iff in H as (a & b & ->).
  apply contains_iff. exists a, ("ized" +:+ b). reflexivity.
Qed.

(** The two taggers agree on every text that does not carry both a
    serious-injury cue and a minor-illness cue. *)
Lemma infer_tag_agrees (text : string) :
  PyStr.any_in ["flu"; "cold"; "common cold"] (PyStr.lower text) = false
  \/ PyStr.any_in ["hospital"; "injury"; "broken wrist"; "surgery"] (PyStr.lower text) = false ->
  Precedent._infer_tag text = Rag.tag_reason text.
Proof.
  unfold Precedent._infer_tag, Rag.tag_reason.
  set (s := PyStr.lower text).
  assert (E : PyStr.any_in ["hospital"; "hospitalized"; "surgery"; "broken wrist"; "injury"] s
              = PyStr.any_in ["hospital"; "injury"; "broken wrist"; "surgery"] s).
  { unfold PyStr.any_in. cbn [existsb].
    destruct (PyStr.contains "hospitalized" s) eqn:Hz.
    - rewrite (hospitalized_is_hospital _ Hz). reflexivity.
    - destruct (PyStr.contains "hospital" s), (PyStr.contains "surgery" s),
        (PyStr.contains "broken wrist" s), (PyStr.contains "injury" s); reflexivity. }
  rewrite E. intros [H|H]; rewrite H;
    destruct (PyStr.any_in ["bereavement"; "passed away"; "funeral"; "death"] s);
    reflexivity.
Qed.

(** A text that carries a minor-illness cue and a serious-injury cue, and
    no bereavement cue, is tagged differently by the two. *)
Lemma infer_tag_disagrees (text : string) :
  PyStr.any_in ["bereavement"; "passed away"; "funeral"; "death"] (PyStr.lower text) = false ->
  PyStr.any_in ["flu"; "cold"; "common cold"] (PyStr.lower text) = true ->
  PyStr.any_in ["hospital"; "injury"; "broken wrist"; "surgery"] (PyStr.lower text) = true ->
  Rag.tag_reason text = "serious_injury" /\ Precedent._infer_tag text = "minor_illness".
Proof.
  intros Hb Hm Hs. unfold Precedent._infer_tag, Rag.tag_reason.
  rewrite Hb, Hm. split; [|reflexivity].
  assert (E : PyStr.any_in ["hospital"; "hospitalized"; "surgery"; "broken wrist"; "injury"]
                (PyStr.lower text) = true).
  { apply any_in_iff. apply any_in_iff in Hs as (w & Hw & Hc).
    exists w. split; [|exact Hc]. cbn in Hw |- *. tauto. }
  now rewrite E.
Qed.

(** C5 (the code departs from the claim).  On the text
    ["flu after surgery"] the Tagging component answers [serious_injury],
    following the order bereavement, serious_injury, minor_illness, travel,
    other, while the tagger of the Precedent Recorder tests the
    minor-illness cues before the serious-injury cues and answers
    [minor_illness]. *)
Theorem infer_tag_order_differs :
  Rag.tag_reason "flu after surgery" = "serious_injury"
  /\ Precedent._infer_tag "flu after surgery" = "minor_illness".
Proof. split; vm_compute; reflexivity. Qed.

(** ** binary64 rounding *)

#[global] Arguments PyNum.fl : simpl never.
#[global] Arguments PyNum.round : simpl never.

Section Pow2.
Open Scope Q_scope.

Lemma pow2_pos (k : Z) : 0 < PyNum.pow2 k.
Proof. apply Qpower_0_lt. reflexivity. Qed.

Lemma pow2_add (a b : Z) : PyNum.pow2 (a + b) == PyNum.pow2 a * PyNum.pow2 b.
Proof. apply Qpower_plus. discriminate. Qed.

Lemma pow2_sub (a b : Z) : PyNum.pow2 (a - b) == PyNum.pow2 a / PyNum.pow2 b.
Proof. apply Qpower_minus. discriminate. Qed.

Lemma pow2_le (a b : Z) : (a <= b)%Z -> PyNum.pow2 a <= PyNum.pow2 b.
Proof. intros H. apply Qpower_le_compat_l; [exact H|discriminate]. Qed.

Lemma pow2_lt (a b : Z) : (a < b)%Z -> PyNum.pow2 a < PyNum.pow2 b.
Proof. intros H. apply Qpower_lt_compat_l; [exact H|reflexivity]. Qed.

Lemma pow2_lt_inv (a b : Z) : PyNum.pow2 a < PyNum.pow2 b -> (a < b)%Z.
Proof. intros H. apply (Qpower_lt_compat_l_inv 2); [exact H|reflexivity]. Qed.

Lemma pow2_int (k : Z) : (0 <= k)%Z -> PyNum.pow2 k == inject_Z (2 ^ k).
Proof. intros H. unfold PyNum.pow2. now rewrite Zpower_Qpower. Qed.

Lemma pow2_succ (k : Z) : PyNum.pow2 (k + 1) == 2 * PyNum.pow2 k.
Proof. rewrite pow2_add. change (PyNum.pow2 1) with 2. ring. Qed.

End Pow2.

Section Ilog2.
Open Scope Q_scope.

Lemma log2_bounds (n : Z) :
  (0 < n)%Z -> PyNum.pow2 (Z.log2 n) <= inject_Z n < 2 * PyNum.pow2 (Z.log2 n).
Proof.
  intros H. destruct (Z.log2_spec n H) as [H1 H2].
  rewrite (pow2_int _ (Z.log2_nonneg n)).
  replace (2 ^ Z.succ (Z.log2 n))%Z with (2 * 2 ^ Z.log2 n)%Z in H2
    by (rewrite Z.pow_succ_r; [reflexivity|apply Z.log2_nonneg]).
  split.
  - rewrite <- Zle_Qle. exact H1.
  - change 2 with (inject_Z 2). rewrite <- inject_Z_mult, <- Zlt_Qlt. exact H2.
Qed.

Lemma ilog2_spec (x : Q) : 0 < x -> PyNum.pow2 (PyNum.ilog2 x) <= x < PyNum.pow2 (PyNum.ilog2 x + 1).
Proof.
  intros Hx. destruct x as [n d]. unfold PyNum.ilog2. cbn [Qnum Qden].
  assert (Hn : (0 < n)%Z) by (unfold Qlt in Hx; cbn in Hx; lia).
  pose proof (log2_bounds n Hn) as [Ha1 Ha2].
  pose proof (log2_bounds (Z.pos d) eq_refl) as [Hb1 Hb2].
  set (a := Z.log2 n) in *. set (b := Z.log2 (Z.pos d)) in *.
  pose proof (pow2_pos a) as HA. pose proof (pow2_pos b) as HB.
  assert (Hxd : n # d == inject_Z n / inject_Z (Z.pos d)) by apply Qmake_Qdiv.
  assert (HD : 0 < inject_Z (Z.pos d)) by (rewrite <- (Zlt_Qlt 0); reflexivity).
  assert (Hk : PyNum.pow2 (a - b) == PyNum.pow2 a / PyNum.pow2 b) by apply pow2_sub.
  assert (Hlo : PyNum.pow2 (a - b - 1) <= n # d).
  { rewrite pow2_sub, Hk, Hxd. change (PyNum.pow2 1) with 2.
    apply Qle_shift_div_l; [exact HD|].
    unfold Qdiv. rewrite <- !Qmult_assoc.
    apply Qle_trans with (PyNum.pow2 a * (/ PyNum.pow2 b * (/ 2 * (2 * PyNum.pow2 b)))).
    - apply Qmult_le_l; [exact HA|]. apply Qmult_le_l; [now apply Qinv_lt_0_compat|].
      apply Qmult_le_l; [reflexivity|]. apply Qlt_le_weak. exact Hb2.
    - field_simplify; [|lra]. lra. }
  assert (Hhi : n # d < PyNum.pow2 (a - b + 1)).
  { rewrite pow2_succ, Hk, Hxd.
    apply Qlt_shift_div_r; [exact HD|].
    apply Qlt_le_trans with (2 * PyNum.pow2 a); [exact Ha2|].
    unfold Qdiv. rewrite <- !Qmult_assoc. apply Qmult_le_l; [reflexivity|].
    apply Qle_trans with (PyNum.pow2 a * (/ PyNum.pow2 b * PyNum.pow2 b)).
    - field_simplify; [|lra]. lra.
    - apply Qmult_le_l; [exact HA|]. apply Qmult_le_l; [now apply Qinv_lt_0_compat|].
      exact Hb1. }
  destruct (Qle_bool (PyNum.pow2 (a - b)) (n # d)) eqn:E.
  - apply Qle_bool_iff in E. split; [exact E|exact Hhi].
  - split; [exact Hlo|].
    replace (a - b - 1 + 1)%Z with (a - b)%Z by lia.
    apply Qnot_le_lt. intros H. apply Qle_bool_iff in H. congruence.
Qed.

Lemma ilog2_unique (x : Q) (e : Z) :
  PyNum.pow2 e <= x < PyNum.pow2 (e + 1) -> PyNum.ilog2 x = e.
Proof.
  intros [H1 H2].
  assert (Hx : 0 < x) by (eapply Qlt_le_trans; [apply (pow2_pos e)|exact H1]).
  destruct (ilog2_spec x Hx) as [H3 H4].
  assert (PyNum.ilog2 x < e + 1)%Z by (apply pow2_lt_inv; eapply Qle_lt_trans; eassumption).
  assert (e < PyNum.ilog2 x + 1)%Z by (apply pow2_lt_inv; eapply Qle_lt_trans; eassumption).
  lia.
Qed.

Lemma ilog2_mono (x y : Q) : 0 < x -> x <= y -> (PyNum.ilog2 x <= PyNum.ilog2 y)%Z.
Proof.
  intros Hx Hxy.
  assert (Hy : 0 < y) by (eapply Qlt_le_trans; eassumption).
  destruct (ilog2_spec x Hx) as [H1 _]. destruct (ilog2_spec y Hy) as [_ H2].
  assert (PyNum.ilog2 x < PyNum.ilog2 y + 1)%Z; [|lia].
  apply pow2_lt_inv. eapply Qle_lt_trans; [exact H1|]. eapply Qle_lt_trans; eassumption.
Qed.

End Ilog2.

Section Rounding.
Open Scope Q_scope.

Lemma round_half_even_cases (q : Q) :
  let f := Qfloor q in
  (q - inject_Z f < 1 # 2 /\ PyNum.round_half_even q = f)
  \/ (q - inject_Z f == 1 # 2
      /\ PyNum.round_half_even q = if Z.even f then f else (f + 1)%Z)
  \/ (1 # 2 < q - inject_Z f /\ PyNum.round_half_even q = (f + 1)%Z).
Proof.
  intros f. unfold PyNum.round_half_even. fold f.
  destruct (Qcompare (q - inject_Z f) (1 # 2)) eqn:E.
  - right. left. split; [now apply Qeq_alt|reflexivity].
  - left. split; [now apply Qlt_alt|reflexivity].
  - right. right. split; [now apply Qgt_alt|reflexivity].
Qed.


Lemma round_half_even_int (z : Z) : PyNum.round_half_even (inject_Z z) = z.
Proof.
  destruct (round_half_even_cases (inject_Z z)) as [[_ H]|[[H _]|[H _]]];
    rewrite Qfloor_Z in *; [exact H|lra|lra].
Qed.

Lemma round_half_even_comp (p q : Q) : p == q -> PyNum.round_half_even p = PyNum.round_half_even q.
Proof.
  intros H. unfold PyNum.round_half_even. rewrite (Qfloor_comp _ _ H).
  assert (E : p - inject_Z (Qfloor q) == q - inject_Z (Qfloor q)) by (rewrite H; reflexivity).
  now rewrite (Qcompare_comp _ _ E _ _ (Qeq_refl (1 # 2))).
Qed.

Lemma round_half_even_mono (p q : Q) : p <= q -> (PyNum.round_half_even p <= PyNum.round_half_even q)%Z.
Proof.
  intros H. pose proof (Qfloor_resp_le _ _ H) as Hf.
  destruct (round_half_even_cases p) as [[Hp ->]|[[Hp ->]|[Hp ->]]];
    destruct (round_half_even_cases q) as [[Hq ->]|[[Hq ->]|[Hq ->]]];
    cbv zeta in *;
    destruct (Z.eq_dec (Qfloor p) (Qfloor q)) as [E|E];
    try rewrite E in *;
    repeat match goal with |- context [Z.even ?z] => destruct (Z.even z) end;
    try lia; exfalso; lra.
Qed.

Lemma round_half_even_nonneg (q : Q) : 0 <= q -> (0 <= PyNum.round_half_even q)%Z.
Proof.
  intros H. rewrite <- (round_half_even_int 0). now apply round_half_even_mono.
Qed.

End Rounding.

Section Binary64.
Open Scope Q_scope.

Lemma fl_zero (x : Q) : x == 0 -> PyNum.fl x = 0.
Proof. intros H. unfold PyNum.fl. apply Qeq_bool_iff in H. now rewrite H. Qed.

Lemma fl_nonzero (x : Q) :
  ~ x == 0 ->
  PyNum.fl x = inject_Z (PyNum.round_half_even (x / PyNum.pow2 (PyNum.quantum x))) * PyNum.pow2 (PyNum.quantum x).
Proof.
  intros H. unfold PyNum.fl. destruct (Qeq_bool x 0) eqn:E; [|reflexivity].
  apply Qeq_bool_iff in E. contradiction.
Qed.

Lemma Qabs_pos_eq (x : Q) : 0 < x -> Qabs x = x.
Proof.
  destruct x as [n d]. unfold Qlt, Qabs. cbn. intros H. f_equal. lia.
Qed.

Lemma quantum_pos (x : Q) : 0 < x -> PyNum.quantum x = Z.max (PyNum.ilog2 x - 52) (-1074).
Proof. intros H. unfold PyNum.quantum. now rewrite Qabs_pos_eq. Qed.

Lemma div_pow2_le (x y : Q) (c : Z) : x <= y -> x / PyNum.pow2 c <= y / PyNum.pow2 c.
Proof.
  intros H. unfold Qdiv. apply Qmult_le_compat_r; [exact H|].
  apply Qlt_le_weak, Qinv_lt_0_compat, pow2_pos.
Qed.

Lemma pow2_div (a c : Z) : PyNum.pow2 a / PyNum.pow2 c == PyNum.pow2 (a - c).
Proof. symmetry. apply pow2_sub. Qed.

Lemma fl_nonneg (x : Q) : 0 <= x -> 0 <= PyNum.fl x.
Proof.
  intros H. unfold PyNum.fl. destruct (Qeq_bool x 0); [lra|].
  apply Qmult_le_0_compat; [|apply Qlt_le_weak, pow2_pos].
  change 0 with (inject_Z 0). rewrite <- Zle_Qle. apply round_half_even_nonneg.
  apply Qle_shift_div_l; [apply pow2_pos|lra].
Qed.

(** The significand of a rounded positive number has at most 53 bits. *)
Lemma significand_bound (x : Q) :
  0 < x -> (PyNum.round_half_even (x / PyNum.pow2 (PyNum.quantum x)) <= 2 ^ 53)%Z.
Proof.
  intros Hx. rewrite <- (round_half_even_int (2 ^ 53)).
  apply round_half_even_mono. rewrite <- (pow2_int 53) by lia.
  destruct (ilog2_spec x Hx) as [_ H].
  apply Qle_shift_div_r; [apply pow2_pos|]. rewrite <- pow2_add.
  apply Qlt_le_weak. eapply Qlt_le_trans; [exact H|]. apply pow2_le.
  rewrite (quantum_pos x Hx). lia.
Qed.

(** A number with a significand of at most 53 bits and an exponent in
    range is a float. *)
Lemma fl_exact (m c : Z) :
  (0 <= m <= 2 ^ 53)%Z -> (-1074 <= c)%Z ->
  PyNum.fl (inject_Z m * PyNum.pow2 c) == inject_Z m * PyNum.pow2 c.
Proof.
  intros Hm Hc. destruct (Z.eq_dec m 0%Z) as [->|Hm0].
  - rewrite fl_zero; [ring|ring].
  - assert (Hmpos : (0 < m)%Z) by lia.
    pose proof (pow2_pos c) as Hpc.
    assert (HmQ : 0 < inject_Z m) by (rewrite <- (Zlt_Qlt 0); exact Hmpos).
    set (y := inject_Z m * PyNum.pow2 c).
    assert (Hy : 0 < y) by (unfold y; apply Qmult_lt_0_compat; assumption).
    destruct (log2_bounds m Hmpos) as [Ha1 Ha2]. set (a := Z.log2 m) in *.
    assert (He : PyNum.ilog2 y = (a + c)%Z).
    { apply ilog2_unique. unfold y. rewrite pow2_succ, !pow2_add. split.
      - apply Qmult_le_compat_r; [exact Ha1|lra].
      - rewrite Qmult_assoc. apply Qmult_lt_compat_r; [exact Hpc|exact Ha2]. }
    assert (Ha53 : (a <= 53)%Z).
    { unfold a. rewrite <- (Z.log2_pow2 53) by lia. apply Z.log2_le_mono. lia. }
    rewrite fl_nonzero by lra. rewrite (quantum_pos y Hy), He.
    destruct (Z_le_gt_dec a 52) as [Hle|Hgt].
    + set (c' := Z.max (a + c - 52) (-1074)).
      assert (Hc' : (0 <= c - c')%Z) by lia.
      assert (E : y / PyNum.pow2 c' == inject_Z (m * 2 ^ (c - c'))).
      { unfold y. rewrite inject_Z_mult, <- (pow2_int _ Hc'), pow2_sub. field.
        pose proof (pow2_pos c'). lra. }
      rewrite (round_half_even_comp _ _ E), round_half_even_int.
      rewrite inject_Z_mult, <- (pow2_int _ Hc'), pow2_sub. unfold y. field.
      pose proof (pow2_pos c'). lra.
    + assert (Ha : a = 53%Z) by lia.
      assert (Hm53 : m = (2 ^ 53)%Z).
      { rewrite Ha, (pow2_int 53) in Ha1 by lia. rewrite <- Zle_Qle in Ha1. lia. }
      replace (Z.max (a + c - 52) (-1074)) with (c + 1)%Z by lia.
      assert (E : y / PyNum.pow2 (c + 1) == inject_Z (2 ^ 52)).
      { unfold y. rewrite Hm53, pow2_succ. 
        change (inject_Z (2 ^ 53)) with (2 * inject_Z (2 ^ 52)). field. lra. }
      rewrite (round_half_even_comp _ _ E), round_half_even_int.
      unfold y. rewrite Hm53, pow2_succ.
      change (inject_Z (2 ^ 53)) with (2 * inject_Z (2 ^ 52)). ring.
Qed.

(** Rounding a float changes nothing. *)
Lemma fl_idem (x : Q) : 0 <= x -> PyNum.fl (PyNum.fl x) == PyNum.fl x.
Proof.
  intros H. destruct (Qeq_dec x 0) as [E|E].
  - rewrite (fl_zero x E). reflexivity.
  - assert (Hx : 0 < x) by (destruct (Qle_lt_or_eq _ _ H) as [?|E']; [assumption|];
                             exfalso; apply E; now symmetry).
    rewrite (fl_nonzero x E). apply fl_exact.
    + split; [|now apply significand_bound].
      apply round_half_even_nonneg. apply Qle_shift_div_l; [apply pow2_pos|lra].
    + rewrite (quantum_pos x Hx). lia.
Qed.

(** Rounding keeps the order of non-negative numbers. *)
Lemma fl_mono (x y : Q) : 0 <= x -> x <= y -> PyNum.fl x <= PyNum.fl y.
Proof.
  intros H0 Hxy. destruct (Qeq_dec x 0) as [E|E].
  - rewrite (fl_zero x E). apply fl_nonneg. lra.
  - assert (Hx : 0 < x) by (destruct (Qle_lt_or_eq _ _ H0) as [?|E']; [assumption|];
                             exfalso; apply E; now symmetry).
    assert (Hy : 0 < y) by lra.
    rewrite (fl_nonzero x) by lra. rewrite (fl_nonzero y) by lra.
    rewrite (quantum_pos x Hx), (quantum_pos y Hy).
    pose proof (ilog2_mono x y Hx Hxy) as He.
    destruct (ilog2_spec x Hx) as [_ Hxhi]. destruct (ilog2_spec y Hy) as [Hylo _].
    set (ex := PyNum.ilog2 x) in *. set (ey := PyNum.ilog2 y) in *.
    set (cx := Z.max (ex - 52) (-1074)). set (cy := Z.max (ey - 52) (-1074)).
    destruct (Z.eq_dec cx cy) as [Ec|Ec].
    + rewrite Ec. apply Qmult_le_compat_r; [|apply Qlt_le_weak, pow2_pos].
      rewrite <- Zle_Qle. apply round_half_even_mono. now apply div_pow2_le.
    + assert (Hcy : cy = (ey - 52)%Z) by lia.
      assert (Hlt : (ex + 1 <= ey)%Z) by lia.
      assert (Hd : (0 <= ey - cx)%Z) by lia.
      apply Qle_trans with (PyNum.pow2 ey).
      * apply Qle_trans with (inject_Z (2 ^ (ey - cx)) * PyNum.pow2 cx).
        -- apply Qmult_le_compat_r; [|apply Qlt_le_weak, pow2_pos].
           rewrite <- Zle_Qle. rewrite <- (round_half_even_int (2 ^ (ey - cx))).
           apply round_half_even_mono. rewrite <- (pow2_int _ Hd), <- pow2_div.
           apply div_pow2_le. apply Qlt_le_weak. eapply Qlt_le_trans; [exact Hxhi|].
           now apply pow2_le.
        -- rewrite <- (pow2_int _ Hd), <- pow2_add.
           replace (ey - cx + cx)%Z with ey by lia. apply Qle_refl.
      * apply Qle_trans with (inject_Z (2 ^ 52) * PyNum.pow2 cy).
        -- rewrite <- (pow2_int 52) by lia. rewrite <- pow2_add, Hcy.
           replace (52 + (ey - 52))%Z with ey by lia. apply Qle_refl.
        -- apply Qmult_le_compat_r; [|apply Qlt_le_weak, pow2_pos].
           rewrite <- Zle_Qle. rewrite <- (round_half_even_int (2 ^ 52)).
           apply round_half_even_mono. rewrite <- (pow2_int 52) by lia.
           replace 52%Z with (ey - cy)%Z at 1 by lia. rewrite <- pow2_div.
           now apply div_pow2_le.
Qed.


End Binary64.

(** The literals [0.1] and [0.65] denote the binary64 numbers one expects,
    and [0.1 + 0.2] is not [0.3]. *)
Example float_one_tenth : (PyNum.fl 0.1 == 3602879701896397 # 36028797018963968)%Q.
Proof. vm_compute. reflexivity. Qed.

Example float_065 : (PyNum.fl 0.65 == 5854679515581645 # 9007199254740992)%Q.
Proof. vm_compute. reflexivity. Qed.

Example float_sum_inexact :
  ~ (PyNum.add (PyNum.fl 0.1) (PyNum.fl 0.2) == PyNum.fl 0.3)%Q.
Proof. vm_compute. discriminate. Qed.

Example round_half_even_ties :
  PyNum.round_half_even (5 # 2) = 2 /\ PyNum.round_half_even (7 # 2) = 4
  /\ PyNum.round_half_even (-5 # 2) = -2.
Proof. repeat split. Qed.

(** ** Retrieval and the precedent stub *)

Lemma precedent_query_is_stub (env : Env) (q : string) (k : positive) (w : World) :
  Rag._precedent_query env q k w = (inr [], w).
Proof. reflexivity. Qed.

(** One run of [policy_lookup]: the payload and the world it leaves. *)
Lemma policy_lookup_run (env : Env) (reason : string) (k : positive) (w : World) :
  Rag.policy_lookup env reason k w =
  (inr (Rag.build_payload (Rag.tag_reason reason)
          (Rag._to_policy_hits env (policy_col w) (Rag.normalize_reason reason) k)
          (Rag._strong_cue_decision
             (Rag._to_policy_hits env (policy_col w) (Rag.normalize_reason reason) k) (PyNum.fl 0.58))
          []
          (match precedent_json w with
           | Counters data => default ∅ (data !! Rag.tag_reason reason)
           | _ => ∅
           end)),
   mkWorld (clock_reads w) (uuid_draws w) (policy_col w) (prec_col w) (precedent_json w)
     (lookups w ++ [PolicyQuery (Rag.normalize_reason reason) k;
                    PrecedentQuery (Rag.normalize_reason reason) 5])).
Proof.
  unfold Rag.policy_lookup, bind, get_world, record_lookup, ret, Rag._load_precedent_stats.
  cbn -[Rag.build_payload Rag._to_policy_hits Rag._strong_cue_decision Rag.tag_reason
        Rag.normalize_reason].
  rewrite <- app_assoc. cbn [app].
  destruct (precedent_json w); reflexivity.
Qed.

(** C2.  [app.precedent] binds no [query_precedent], so the import in
    [rag.py] fails and [_precedent_query] is the stub: it answers with the
    empty list for every text and every [k], in every world.  Hence
    [pre_allow] and [pre_deny] are zero, [policy_lookup] builds its payload
    from the policy hits and the counters alone, and two runs that see the
    same policy hits and the same counter file return the same payload,
    whatever the precedent collection holds and whatever similarity a
    precedent query would report. *)
Theorem precedent_never_consulted (env : Env) (reason : string) (k : positive) (w : World) :
  Rag.can_import "query_precedent" = false
  /\ (forall q k' w', Rag._precedent_query env q k' w' = (inr [], w'))
  /\ Rag.vote [] "outcome" "allow" = 0%Q
  /\ Rag.vote [] "outcome" "deny" = 0%Q
  /\ fst (Rag.policy_lookup env reason k w)
     = inr (Rag.build_payload (Rag.tag_reason reason)
              (Rag._to_policy_hits env (policy_col w) (Rag.normalize_reason reason) k)
              (Rag._strong_cue_decision
                 (Rag._to_policy_hits env (policy_col w) (Rag.normalize_reason reason) k) (PyNum.fl 0.58))
              []
              (match precedent_json w with
               | Counters data => default ∅ (data !! Rag.tag_reason reason)
               | _ => ∅
               end))
  /\ (forall env' w',
        Rag._to_policy_hits env' (policy_col w') (Rag.normalize_reason reason) k
        = Rag._to_policy_hits env (policy_col w) (Rag.normalize_reason reason) k ->
        precedent_json w' = precedent_json w ->
        fst (Rag.policy_lookup env' reason k w') = fst (Rag.policy_lookup env reason k w)).
Proof.
  split; [reflexivity|]. split; [intros; apply precedent_query_is_stub|].
  split; [reflexivity|]. split; [reflexivity|].
  split; [rewrite policy_lookup_run; reflexivity|].
  intros env' w' Hhits Hjson. rewrite !policy_lookup_run. cbn [fst].
  rewrite Hhits, Hjson. reflexivity.
Qed.

Lemma precedent_never_consulted_witness :
  prec_col Sample.busy_world <> prec_col Sample.policy_world
  /\ precedent_json Sample.busy_world = precedent_json Sample.policy_world
  /\ fst (Rag.policy_lookup Sample.loud_env "My grandfather passed away" 5 Sample.busy_world)
     = fst (Rag.policy_lookup Sample.env "My grandfather passed away" 5 Sample.policy_world).
Proof.
  split; [discriminate|]. split; [reflexivity|].
  apply (precedent_never_consulted Sample.env "My grandfather passed away" 5
           Sample.policy_world); reflexivity.
Defined.

(** ** Scores *)

Section ScoreFacts.
Open Scope Q_scope.

Lemma ltb_true (a b : Q) : PyNum.ltb a b = true <-> a < b.
Proof.
  unfold PyNum.ltb. rewrite negb_true_iff. split.
  - intros H. apply Qnot_le_lt. intros Hle. apply Qle_bool_iff in Hle. congruence.
  - intros H. destruct (Qle_bool b a) eqn:E; [|reflexivity].
    apply Qle_bool_iff in E. exfalso. exact (Qlt_not_le _ _ H E).
Qed.

Lemma ltb_false (a b : Q) : PyNum.ltb a b = false <-> b <= a.
Proof.
  unfold PyNum.ltb. rewrite negb_false_iff. apply Qle_bool_iff.
Qed.

Lemma leb_true (a b : Q) : PyNum.leb a b = true <-> a <= b.
Proof. apply Qle_bool_iff. Qed.

Lemma leb_false (a b : Q) : PyNum.leb a b = false <-> b < a.
Proof.
  unfold PyNum.leb. split.
  - intros H. apply Qnot_le_lt. intros Hle. apply Qle_bool_iff in Hle. congruence.
  - intros H. destruct (Qle_bool a b) eqn:E; [|reflexivity].
    apply Qle_bool_iff in E. exfalso. exact (Qlt_not_le _ _ H E).
Qed.

Lemma max_spec (a b : Q) :
  (a < b /\ PyNum.max a b = b) \/ (b <= a /\ PyNum.max a b = a).
Proof.
  unfold PyNum.max. destruct (PyNum.ltb a b) eqn:E.
  - left. split; [now apply ltb_true|reflexivity].
  - right. split; [now apply ltb_false|reflexivity].
Qed.

Lemma min_spec (a b : Q) :
  (b < a /\ PyNum.min a b = b) \/ (a <= b /\ PyNum.min a b = a).
Proof.
  unfold PyNum.min. destruct (PyNum.ltb b a) eqn:E.
  - left. split; [now apply ltb_true|reflexivity].
  - right. split; [now apply ltb_false|reflexivity].
Qed.

Lemma max_ge_l (a b : Q) : a <= PyNum.max a b.
Proof. destruct (max_spec a b) as [[H ->]|[H ->]]; lra. Qed.

Lemma max_ge_r (a b : Q) : b <= PyNum.max a b.
Proof. destruct (max_spec a b) as [[H ->]|[H ->]]; lra. Qed.

Lemma max_le (a b c : Q) : a <= c -> b <= c -> PyNum.max a b <= c.
Proof. intros. destruct (max_spec a b) as [[H' ->]|[H' ->]]; lra. Qed.

(** The similarity of a hit is the clamped [1 - distance]. *)
Lemma to_similarity_bounds (dist : Q) :
  0 <= Rag.to_similarity dist <= 1.
Proof.
  unfold Rag.to_similarity. set (t := PyNum.sub 1 (PyNum.fl dist)).
  assert (Hm : PyNum.min 1 t <= 1)
    by (destruct (min_spec 1 t) as [[H ->]|[H ->]]; lra).
  destruct (max_spec 0 (PyNum.min 1 t)) as [[H ->]|[H ->]]; lra.
Qed.

End ScoreFacts.

(** ** Sorting *)

Section SortFacts.
Context {A : Type} (before : A -> A -> bool).

Lemma insert_by_length (x : A) (l : list A) :
  length (PyList.insert_by before x l) = S (length l).
Proof.
  induction l as [|y l IH]; [reflexivity|].
  cbn. destruct (before x y); cbn; [reflexivity|now rewrite IH].
Qed.

Lemma stable_sort_cons (x : A) (l : list A) :
  PyList.stable_sort before (x :: l)
  = PyList.insert_by before x (PyList.stable_sort before l).
Proof. reflexivity. Qed.

Lemma stable_sort_length (l : list A) :
  length (PyList.stable_sort before l) = length l.
Proof.
  induction l as [|x l IH]; [reflexivity|].
  now rewrite stable_sort_cons, insert_by_length, IH.
Qed.

Lemma insert_by_In (x y : A) (l : list A) :
  In y (PyList.insert_by before x l) <-> y = x \/ In y l.
Proof.
  induction l as [|z l IH]; cbn.
  - intuition congruence.
  - destruct (before x z); cbn; [intuition congruence|].
    rewrite IH. intuition congruence.
Qed.

Lemma stable_sort_In (y : A) (l : list A) :
  In y (PyList.stable_sort before l) <-> In y l.
Proof.
  induction l as [|x l IH]; [reflexivity|].
  rewrite stable_sort_cons, insert_by_In, IH. cbn. intuition congruence.
Qed.

Hypothesis before_total : forall x y, before x y = false -> before y x = true.
Hypothesis before_trans :
  forall x y z, before x y = true -> before y z = true -> before x z = true.

Lemma insert_by_sorted (x : A) (l : list A) :
  StronglySorted (fun a b => before a b = true) l ->
  StronglySorted (fun a b => before a b = true) (PyList.insert_by before x l).
Proof.
  induction 1 as [|y l Hs IH Hy]; cbn.
  - constructor; constructor.
  - destruct (before x y) eqn:E.
    + constructor; [constructor; assumption|].
      constructor; [exact E|].
      apply List.Forall_forall. intros z Hz.
      apply before_trans with y; [exact E|].
      exact (proj1 (List.Forall_forall _ _) Hy z Hz).
    + constructor; [exact IH|].
      apply List.Forall_forall. intros z Hz. apply insert_by_In in Hz as [->|Hz].
      * now apply before_total.
      * exact (proj1 (List.Forall_forall _ _) Hy z Hz).
Qed.

Lemma stable_sort_sorted (l : list A) :
  StronglySorted (fun a b => before a b = true) (PyList.stable_sort before l).
Proof.
  induction l as [|x l IH].
  - constructor.
  - rewrite stable_sort_cons. now apply insert_by_sorted.
Qed.

End SortFacts.

Lemma zip3_map {A B C D} (f : A -> B) (g : A -> C) (h : A -> D) (l : list A) :
  PyList.zip3 (map f l) (map g l) (map h l) = map (fun x => (f x, g x, h x)) l.
Proof. induction l as [|x l IH]; [reflexivity|]. cbn. now rewrite IH. Qed.

Lemma In_firstn {A} (n : nat) (l : list A) (x : A) : In x (firstn n l) -> In x l.
Proof.
  revert l. induction n as [|n IH]; intros [|y l] H; cbn in H; try contradiction.
  destruct H as [->|H]; [now left|right; now apply IH].
Qed.

Lemma StronglySorted_impl {A} (R S : A -> A -> Prop) (l : list A) :
  (forall a b, R a b -> S a b) -> StronglySorted R l -> StronglySorted S l.
Proof.
  intros HRS. induction 1 as [|x l Hs IH Hx]; constructor; [exact IH|].
  eapply List.Forall_impl; [|exact Hx]. intros b. apply HRS.
Qed.

(** A hit of [_to_policy_hits] comes from a stored entry. *)
Lemma to_policy_hits_In (env : Env) (col : list PolicyEntry) (q : string) (k : positive)
    (h : Hit) :
  In h (Rag._to_policy_hits env col q k) ->
  exists e, In e col /\ h = Rag.to_hit (pe_document e, pe_metadata e, distance env q e).
Proof.
  unfold Rag._to_policy_hits, Rag.col_query. cbn [Rag.documents Rag.metadatas Rag.distances].
  rewrite zip3_map, map_map. intros Hh.
  apply stable_sort_In, in_map_iff in Hh as (e & <- & He).
  exists e. split; [|reflexivity].
  apply In_firstn in He. now apply stable_sort_In in He.
Qed.

Lemma to_policy_hits_length (env : Env) (col : list PolicyEntry) (q : string) (k : positive) :
  (length (Rag._to_policy_hits env col q k) <= Pos.to_nat k)%nat.
Proof.
  unfold Rag._to_policy_hits, Rag.col_query. cbn [Rag.documents Rag.metadatas Rag.distances].
  rewrite zip3_map, map_map, stable_sort_length, length_map, length_firstn. lia.
Qed.

(** Every hit that [_to_policy_hits] builds has its similarity in [0,1]. *)
Lemma policy_hits_unit (env : Env) (col : list PolicyEntry) (q : string) (k : positive) :
  List.Forall (fun h => (0 <= similarity h <= 1)%Q) (Rag._to_policy_hits env col q k).
Proof.
  apply List.Forall_forall. intros h Hh.
  apply to_policy_hits_In in Hh as (e & _ & ->). apply to_similarity_bounds.
Qed.

Section NearestFacts.
Context {A : Type} (before : A -> A -> bool).

Lemma insert_by_perm (x : A) (l : list A) :
  Permutation (PyList.insert_by before x l) (x :: l).
Proof.
  induction l as [|y l IH]; [reflexivity|].
  cbn. destruct (before x y); [reflexivity|].
  rewrite IH. apply perm_swap.
Qed.

Lemma stable_sort_perm (l : list A) : Permutation (PyList.stable_sort before l) l.
Proof.
  induction l as [|x l IH]; [reflexivity|].
  rewrite stable_sort_cons, insert_by_perm. now apply perm_skip.
Qed.

(** In a sorted list, what [firstn] keeps stands before what it drops. *)
Lemma sorted_firstn_skipn (R : A -> A -> Prop) (n : nat) (l : list A) (a b : A) :
  StronglySorted R l -> In a (firstn n l) -> In b (skipn n l) -> R a b.
Proof.
  intros Hs. revert n. induction Hs as [|x l Hs IH Hx]; intros n Ha Hb.
  - rewrite firstn_nil in Ha. destruct Ha.
  - destruct n as [|n]; [destruct Ha|]. cbn in Ha, Hb. destruct Ha as [<-|Ha].
    + apply (proj1 (List.Forall_forall _ _) Hx). clear - Hb.
      revert l Hb. induction n as [|n IHn]; intros l Hb; [exact Hb|].
      destruct l as [|y l]; [destruct Hb|]. right. now apply IHn.
    + now apply (IH n).
Qed.

End NearestFacts.

(** The hit built from a stored entry. *)
Lemma to_policy_hits_perm (env : Env) (col : list PolicyEntry) (q : string) (k : positive) :
  let nearest :=
    firstn (Pos.to_nat k)
      (PyList.stable_sort (fun a b => PyNum.leb (distance env q a) (distance env q b)) col) in
  let rest :=
    skipn (Pos.to_nat k)
      (PyList.stable_sort (fun a b => PyNum.leb (distance env q a) (distance env q b)) col) in
  Permutation col (nearest ++ rest)
  /\ (forall e e', In e nearest -> In e' rest -> (distance env q e <= distance env q e')%Q)
  /\ Permutation (Rag._to_policy_hits env col q k)
       (map (fun e => Rag.to_hit (pe_document e, pe_metadata e, distance env q e)) nearest).
Proof.
  cbv zeta. split; [|split].
  - rewrite firstn_skipn. symmetry. apply stable_sort_perm.
  - intros e e' He He'. apply leb_true.
    eapply (sorted_firstn_skipn
              (fun a b => PyNum.leb (distance env q a) (distance env q b) = true));
      [|exact He|exact He'].
    apply stable_sort_sorted.
    + intros x y H. apply leb_false in H. apply leb_true. apply Qlt_le_weak. exact H.
    + intros x y z H1 H2. apply leb_true in H1, H2. apply leb_true.
      eapply Qle_trans; eassumption.
  - unfold Rag._to_policy_hits, Rag.col_query. cbn [Rag.documents Rag.metadatas Rag.distances].
    rewrite zip3_map, map_map. apply stable_sort_perm.
Qed.

Lemma to_policy_hits_count (env : Env) (col : list PolicyEntry) (q : string) (k : positive) :
  length (Rag._to_policy_hits env col q k) = Nat.min (Pos.to_nat k) (length col).
Proof.
  unfold Rag._to_policy_hits, Rag.col_query. cbn [Rag.documents Rag.metadatas Rag.distances].
  rewrite zip3_map, map_map, stable_sort_length, length_map, length_firstn, stable_sort_length.
  reflexivity.
Qed.

(** C10.  For every collection, query text and [k], the Evidence Retriever
    returns exactly [min(k, n)] hits from a collection of [n] entries, so at
    most [k], and at least one from a collection that is not empty.  The
    hits are, up to their order, the hits built from the [k] entries
    nearest to the query: no entry that is left out is nearer than one that
    is returned.  Each hit carries the document, the metadata and the
    source of its stored entry; its similarity is
    [max(0, min(1, 1 - distance))], computed in floats, for the distance of
    that entry, and lies in [0,1].  The hits are in descending order of
    similarity. *)
Theorem retriever_hits_bounded_and_ranked (env : Env) (col : list PolicyEntry)
    (query_text : string) (k : positive) :
  let hits := Rag._to_policy_hits env col query_text k in
  let hit_of := fun e => Rag.to_hit (pe_document e, pe_metadata e, distance env query_text e) in
  length hits = Nat.min (Pos.to_nat k) (length col)
  /\ (length hits <= Pos.to_nat k)%nat
  /\ (col <> [] -> hits <> [])
  /\ (exists nearest rest,
        Permutation col (nearest ++ rest)
        /\ (forall e e', In e nearest -> In e' rest ->
              (distance env query_text e <= distance env query_text e')%Q)
        /\ Permutation hits (map hit_of nearest))
  /\ Forall (fun h =>
               (exists e, In e col
                  /\ h = hit_of e
                  /\ document h = default "" (pe_document e)
                  /\ metadata h = default ∅ (pe_metadata e)
                  /\ source h = match default ∅ (pe_metadata e) !! "source" with
                                | Some v => v
                                | None => Some "policy"
                                end
                  /\ similarity h
                     = PyNum.max 0
                         (PyNum.min 1 (PyNum.sub 1 (PyNum.fl (distance env query_text e)))))
               /\ (0 <= similarity h <= 1)%Q)
            hits
  /\ StronglySorted (fun a b => (similarity b <= similarity a)%Q) hits.
Proof.
  cbv zeta. pose proof (to_policy_hits_count env col query_text k) as Hn.
  split; [exact Hn|]. split; [apply to_policy_hits_length|]. split; [|split; [|split]].
  - intros Hcol Hhits. rewrite Hhits in Hn. cbn [length] in Hn.
    destruct col as [|e col]; [now apply Hcol|]. cbn [length] in Hn. lia.
  - destruct (to_policy_hits_perm env col query_text k) as (H1 & H2 & H3).
    do 2 eexists. split; [exact H1|]. split; [exact H2|exact H3].
  - apply List.Forall_forall. intros h Hh.
    apply to_policy_hits_In in Hh as (e & He & ->).
    split; [|apply to_similarity_bounds]. exists e. split; [exact He|].
    repeat split; reflexivity.
  - unfold Rag._to_policy_hits.
    eapply StronglySorted_impl; [|apply stable_sort_sorted].
    + intros a b H. now apply leb_true in H.
    + intros x y H. apply leb_false in H. apply leb_true. apply Qlt_le_weak. exact H.
    + intros x y z H1 H2. apply leb_true in H1, H2. apply leb_true.
      eapply Qle_trans; eassumption.
Qed.

(** Of the two clauses of the sample corpus the second is the nearer one:
    asked for one hit the retriever returns that clause, asked for five it
    returns both, the nearer first. *)
Lemma retriever_hits_bounded_and_ranked_witness :
  Rag._to_policy_hits Sample.ranked_env [Sample.deny_clause; Sample.allow_clause]
    "death bereavement in the family" 1
  = [ mkHit "ALLOW: bereavement in the immediate family"
        (<["label" := Some "allow"]> (<["source" := Some "policy.txt"]> ∅))
        (PyNum.sub 1 (PyNum.fl 0.1)) (Some "policy.txt") ]
  /\ map document
       (Rag._to_policy_hits Sample.ranked_env [Sample.deny_clause; Sample.allow_clause]
          "death bereavement in the family" 5)
     = [ "ALLOW: bereavement in the immediate family";
         "DENY: a common cold is insufficient grounds for an extension" ]
  /\ length (Rag._to_policy_hits Sample.ranked_env [Sample.deny_clause; Sample.allow_clause]
               "death bereavement in the family" 1) = 1%nat
  /\ length (Rag._to_policy_hits Sample.ranked_env [Sample.deny_clause; Sample.allow_clause]
               "death bereavement in the family" 5) = 2%nat.
Proof.
  split; [vm_compute; reflexivity|]. split; [vm_compute; reflexivity|]. split.
  - exact (proj1 (retriever_hits_bounded_and_ranked Sample.ranked_env
                    [Sample.deny_clause; Sample.allow_clause]
                    "death bereavement in the family" 1)).
  - exact (proj1 (retriever_hits_bounded_and_ranked Sample.ranked_env
                    [Sample.deny_clause; Sample.allow_clause]
                    "death bereavement in the family" 5)).
Defined.

(** ** Rounding to three decimals *)

Section RoundFacts.
Open Scope Q_scope.

Lemma decimal_round3 (x : Q) :
  PyNum.decimal_round x 3 = Qmake (PyNum.round_half_even (x * inject_Z 1000)) 1000.
Proof. reflexivity. Qed.

Lemma decimal_round3_mono (x y : Q) :
  x <= y -> PyNum.decimal_round x 3 <= PyNum.decimal_round y 3.
Proof.
  intros H. rewrite !decimal_round3. unfold Qle. cbn [Qnum Qden].
  assert (PyNum.round_half_even (x * inject_Z 1000)
          <= PyNum.round_half_even (y * inject_Z 1000))%Z; [|lia].
  apply round_half_even_mono. apply Qmult_le_compat_r; [exact H|discriminate].
Qed.

Lemma decimal_round3_nonneg (x : Q) : 0 <= x -> 0 <= PyNum.decimal_round x 3.
Proof.
  intros H. apply Qle_trans with (PyNum.decimal_round 0 3); [discriminate|].
  now apply decimal_round3_mono.
Qed.

Lemma round3_mono (x y : Q) : 0 <= x -> x <= y -> PyNum.round x 3 <= PyNum.round y 3.
Proof.
  intros H0 H. unfold PyNum.round.
  apply fl_mono; [now apply decimal_round3_nonneg|now apply decimal_round3_mono].
Qed.

Lemma round3_unit (x : Q) : 0 <= x <= 1 -> 0 <= PyNum.round x 3 <= 1.
Proof.
  intros [H0 H1]. split.
  - unfold PyNum.round. now apply fl_nonneg, decimal_round3_nonneg.
  - apply Qle_trans with (PyNum.round 1 3); [now apply round3_mono|].
    vm_compute. discriminate.
Qed.

End RoundFacts.

(** ** Score aggregation *)

Section AggregateFacts.
Open Scope Q_scope.

Lemma add_nonneg (a b : Q) : 0 <= a -> 0 <= b -> 0 <= PyNum.add a b.
Proof. intros. unfold PyNum.add. apply fl_nonneg. lra. Qed.

Lemma mul_nonneg (a b : Q) : 0 <= a -> 0 <= b -> 0 <= PyNum.mul a b.
Proof. intros. unfold PyNum.mul. apply fl_nonneg. now apply Qmult_le_0_compat. Qed.

(** The sum of two non-negative floats is a float that is at least the
    larger of the two. *)
Lemma add_ge_max (a b : Q) :
  0 <= a -> 0 <= b -> PyNum.fl a == a -> PyNum.fl b == b ->
  PyNum.max a b <= PyNum.add a b.
Proof.
  intros Ha Hb Fa Fb. unfold PyNum.add.
  destruct (max_spec a b) as [[_ ->]|[_ ->]].
  - rewrite <- Fb at 1. apply fl_mono; lra.
  - rewrite <- Fa at 1. apply fl_mono; lra.
Qed.

Lemma add_is_float (a b : Q) :
  0 <= a -> 0 <= b -> PyNum.fl (PyNum.add a b) == PyNum.add a b.
Proof. intros. unfold PyNum.add. apply fl_idem. lra. Qed.

Lemma fold_add_nonneg (xs : list Q) (acc : Q) :
  0 <= acc -> List.Forall (fun x => 0 <= x) xs -> 0 <= fold_left PyNum.add xs acc.
Proof.
  revert acc. induction xs as [|x xs IH]; intros acc Ha Hx; [exact Ha|].
  cbn. inversion Hx; subst. apply IH; [now apply add_nonneg|assumption].
Qed.

Lemma vote_nonneg (hits : list Hit) (key value : string) :
  List.Forall (fun h => 0 <= similarity h <= 1) hits -> 0 <= Rag.vote hits key value.
Proof.
  intros H. unfold Rag.vote, PyNum.sum. apply fold_add_nonneg; [lra|].
  apply List.Forall_forall. intros x Hx.
  apply List.in_map_iff in Hx as (h & <- & Hh).
  apply list_elem_of_In, list_elem_of_filter in Hh as [_ Hh].
  apply list_elem_of_In in Hh.
  exact (proj1 (proj1 (List.Forall_forall _ _) H h Hh)).
Qed.

Lemma weights_nonneg :
  0 <= Rag.PRECEDENT_WEIGHT /\ 0 <= PyNum.sub 1 Rag.PRECEDENT_WEIGHT.
Proof. split; vm_compute; discriminate. Qed.

Lemma blend_nonneg (pol pre : Q) :
  0 <= pol -> 0 <= pre ->
  0 <= PyNum.mul (PyNum.sub 1 Rag.PRECEDENT_WEIGHT) pol
  /\ 0 <= PyNum.mul Rag.PRECEDENT_WEIGHT pre.
Proof.
  intros H1 H2. destruct weights_nonneg as [Hw Hw'].
  split; now apply mul_nonneg.
Qed.

Lemma allow_score_nonneg (policy_hits precedent_hits : list Hit) :
  List.Forall (fun h => 0 <= similarity h <= 1) policy_hits ->
  List.Forall (fun h => 0 <= similarity h <= 1) precedent_hits ->
  0 <= Rag.allow_score policy_hits precedent_hits
  /\ PyNum.fl (Rag.allow_score policy_hits precedent_hits)
     == Rag.allow_score policy_hits precedent_hits.
Proof.
  intros H1 H2. unfold Rag.allow_score.
  destruct (blend_nonneg _ _ (vote_nonneg policy_hits "label" "allow" H1)
              (vote_nonneg precedent_hits "outcome" "allow" H2)) as [Ha Hb].
  split; [now apply add_nonneg|now apply add_is_float].
Qed.

Lemma deny_score_nonneg (policy_hits precedent_hits : list Hit) :
  List.Forall (fun h => 0 <= similarity h <= 1) policy_hits ->
  List.Forall (fun h => 0 <= similarity h <= 1) precedent_hits ->
  0 <= Rag.deny_score policy_hits precedent_hits
  /\ PyNum.fl (Rag.deny_score policy_hits precedent_hits)
     == Rag.deny_score policy_hits precedent_hits.
Proof.
  intros H1 H2. unfold Rag.deny_score.
  destruct (blend_nonneg _ _ (vote_nonneg policy_hits "label" "deny" H1)
              (vote_nonneg precedent_hits "outcome" "deny" H2)) as [Ha Hb].
  split; [now apply add_nonneg|now apply add_is_float].
Qed.

Lemma vote_confidence_unit (policy_hits precedent_hits : list Hit) :
  List.Forall (fun h => 0 <= similarity h <= 1) policy_hits ->
  List.Forall (fun h => 0 <= similarity h <= 1) precedent_hits ->
  0 <= Rag.vote_confidence policy_hits precedent_hits <= 1.
Proof.
  intros H1 H2. unfold Rag.vote_confidence, Rag.total_score.
  destruct (allow_score_nonneg _ _ H1 H2) as [Ha Fa].
  destruct (deny_score_nonneg _ _ H1 H2) as [Hd Fd].
  set (a := Rag.allow_score policy_hits precedent_hits) in *.
  set (d := Rag.deny_score policy_hits precedent_hits) in *.
  pose proof (add_ge_max a d Ha Hd Fa Fd) as Hmax.
  destruct (PyNum.ltb 0 (PyNum.add a d)) eqn:E; [|lra].
  apply ltb_true in E. unfold PyNum.div.
  assert (H0 : 0 <= PyNum.max a d / PyNum.add a d).
  { apply Qle_shift_div_l; [exact E|]. pose proof (max_ge_l a d). lra. }
  split.
  - now apply fl_nonneg.
  - apply Qle_trans with (PyNum.fl 1); [|vm_compute; discriminate].
    apply fl_mono; [exact H0|]. apply Qle_shift_div_r; [exact E|]. lra.
Qed.

Lemma vote_confidence_zero (policy_hits precedent_hits : list Hit) :
  Rag.total_score policy_hits precedent_hits == 0 ->
  Rag.vote_confidence policy_hits precedent_hits = 0.
Proof.
  intros H. unfold Rag.vote_confidence.
  destruct (PyNum.ltb 0 _) eqn:E; [|reflexivity].
  apply ltb_true in E. rewrite H in E. lra.
Qed.

(** The override, when there is one, carries [max(min_sim, 0.65)]. *)
Lemma strong_confidence_value (hits : list Hit) (min_sim : Q) (st : Rag.Strong) :
  Rag._strong_cue_decision hits min_sim = Some st ->
  Rag.strong_confidence st = PyNum.max min_sim (PyNum.fl 0.65).
Proof.
  unfold Rag._strong_cue_decision.
  destruct (fold_left _ hits (false, false)) as [d a].
  destruct (d && negb a); [intros [= <-]; reflexivity|].
  destruct (a && negb d); [intros [= <-]; reflexivity|discriminate].
Qed.

Lemma default_override_confidence :
  PyNum.max (PyNum.fl 0.58) (PyNum.fl 0.65) = PyNum.fl 0.65.
Proof. vm_compute. reflexivity. Qed.

Lemma payload_confidence (tag : string) (policy_hits : list Hit) (strong : option Rag.Strong)
    (precedent_hits : list Hit) (stats : gmap string Z) :
  Rag.confidence (Rag.build_payload tag policy_hits strong precedent_hits stats)
  = PyNum.round (fst (Rag.final_decision strong policy_hits precedent_hits)) 3.
Proof.
  unfold Rag.build_payload. destruct (Rag.final_decision _ _ _). reflexivity.
Qed.

Lemma payload_recommend (tag : string) (policy_hits : list Hit) (strong : option Rag.Strong)
    (precedent_hits : list Hit) (stats : gmap string Z) :
  Rag.recommend (Rag.build_payload tag policy_hits strong precedent_hits stats)
  = snd (Rag.final_decision strong policy_hits precedent_hits).
Proof.
  unfold Rag.build_payload. destruct (Rag.final_decision _ _ _). reflexivity.
Qed.

Lemma payload_decision (tag : string) (policy_hits : list Hit) (strong : option Rag.Strong)
    (precedent_hits : list Hit) (stats : gmap string Z) :
  Rag.decision (Rag.build_payload tag policy_hits strong precedent_hits stats)
  = match snd (Rag.final_decision strong policy_hits precedent_hits) with
    | Some _ => "recommendation"
    | None => "needs_review"
    end.
Proof.
  unfold Rag.build_payload. destruct (Rag.final_decision _ _ _). reflexivity.
Qed.

Lemma build_payload_unit (tag : string) (policy_hits precedent_hits : list Hit)
    (stats : gmap string Z) :
  List.Forall (fun h => 0 <= similarity h <= 1) policy_hits ->
  List.Forall (fun h => 0 <= similarity h <= 1) precedent_hits ->
  0 <= Rag.confidence
         (Rag.build_payload tag policy_hits
            (Rag._strong_cue_decision policy_hits (PyNum.fl 0.58))
            precedent_hits stats) <= 1.
Proof.
  intros H1 H2. rewrite payload_confidence. apply round3_unit.
  pose proof (vote_confidence_unit _ _ H1 H2) as Hc.
  unfold Rag.final_decision.
  destruct (Rag._strong_cue_decision policy_hits (PyNum.fl 0.58)) as [st|] eqn:E;
    cbn [fst]; [|exact Hc].
  rewrite (strong_confidence_value _ _ _ E), default_override_confidence.
  assert (H65 : 0 <= PyNum.fl 0.65 <= 1) by (split; vm_compute; discriminate).
  destruct (max_spec (Rag.vote_confidence policy_hits precedent_hits) (PyNum.fl 0.65))
    as [[H ->]|[H ->]]; lra.
Qed.

End AggregateFacts.

(** C3.  Whatever the policy hits and the precedent hits are, as long as
    their similarities lie in [0,1] as those of every evidence hit do, the
    confidence of the payload lies in [0,1]; and when the blended total
    score is 0 and no strong cue fired, the confidence is 0, the
    recommendation is null and the decision is [needs_review].  In
    particular the confidence of every payload that [policy_lookup] returns
    lies in [0,1]. *)
Theorem confidence_in_unit_interval :
  (forall (tag : string) (policy_hits precedent_hits : list Hit) (stats : gmap string Z),
      List.Forall (fun h => 0 <= similarity h <= 1)%Q policy_hits ->
      List.Forall (fun h => 0 <= similarity h <= 1)%Q precedent_hits ->
      let strong := Rag._strong_cue_decision policy_hits (PyNum.fl 0.58) in
      let p := Rag.build_payload tag policy_hits strong precedent_hits stats in
      (0 <= Rag.confidence p <= 1)%Q
      /\ ((Rag.total_score policy_hits precedent_hits == 0)%Q -> strong = None ->
          (Rag.confidence p == 0)%Q /\ Rag.recommend p = None
          /\ Rag.decision p = "needs_review"))
  /\ (forall (env : Env) (reason : string) (k : positive) (w : World),
         exists p w', Rag.policy_lookup env reason k w = (inr p, w')
                      /\ (0 <= Rag.confidence p <= 1)%Q).
Proof.
  split.
  - intros tag policy_hits precedent_hits stats H1 H2 strong p. split.
    + now apply build_payload_unit.
    + intros Htotal Hstrong. unfold p.
      rewrite payload_confidence, payload_recommend, payload_decision.
      rewrite Hstrong. unfold Rag.final_decision. cbn [fst snd].
      rewrite (vote_confidence_zero _ _ Htotal).
      assert (Hmin : PyNum.ltb 0 Rag.MIN_CONF = true) by (vm_compute; reflexivity).
      rewrite Hmin. cbn [orb].
      split; [vm_compute; reflexivity|split; reflexivity].
  - intros env reason k w. rewrite policy_lookup_run. do 2 eexists.
    split; [reflexivity|]. apply build_payload_unit; [apply policy_hits_unit|constructor].
Qed.

Lemma confidence_in_unit_interval_witness :
  (0 <= Rag.confidence
          (Rag.build_payload "other" [Sample.deny_hit; Sample.allow_hit]
             (Rag._strong_cue_decision [Sample.deny_hit; Sample.allow_hit] (PyNum.fl 0.58))
             [Sample.precedent_hit] ∅) <= 1)%Q
  /\ (Rag.confidence (Rag.build_payload "other" [Sample.unlabelled_hit]
                        (Rag._strong_cue_decision [Sample.unlabelled_hit] (PyNum.fl 0.58)) [] ∅) == 0)%Q.
Proof.
  split.
  - apply (proj1 confidence_in_unit_interval "other" [Sample.deny_hit; Sample.allow_hit]
             [Sample.precedent_hit] ∅).
    + repeat constructor; vm_compute; discriminate.
    + repeat constructor; vm_compute; discriminate.
  - apply (proj1 confidence_in_unit_interval "other" [Sample.unlabelled_hit] [] ∅).
    + repeat constructor; vm_compute; discriminate.
    + constructor.
    + vm_compute. reflexivity.
    + vm_compute. reflexivity.
Defined.

(** ** The strong-cue override *)

Lemma strong_cue_fold (min_sim : Q) (hits : list Hit) (d a : bool) :
  fold_left (Rag.strong_cue_step min_sim) hits (d, a)
  = (d || existsb (Spec.cue_hit "deny" Rag.deny_cues min_sim) hits,
     a || existsb (Spec.cue_hit "allow" Rag.allow_cues min_sim) hits).
Proof.
  revert d a. induction hits as [|h hits IH]; intros d a.
  - cbn. now rewrite !orb_false_r.
  - cbn [fold_left existsb]. unfold Rag.strong_cue_step at 2.
    fold (Spec.cue_hit "deny" Rag.deny_cues min_sim h).
    fold (Spec.cue_hit "allow" Rag.allow_cues min_sim h).
    rewrite IH.
    destruct (Spec.cue_hit "deny" Rag.deny_cues min_sim h),
      (Spec.cue_hit "allow" Rag.allow_cues min_sim h), d, a; reflexivity.
Qed.

Lemma fires_iff (label : string) (cues : list string) (min_sim : Q) (hits : list Hit) :
  Spec.fires label cues min_sim hits <-> existsb (Spec.cue_hit label cues min_sim) hits = true.
Proof.
  rewrite existsb_exists. unfold Spec.fires, Spec.cue_hit. split.
  - intros (h & Hin & Hl & Hs & cue & Hc & Ht). exists h. split; [exact Hin|].
    rewrite !andb_true_iff. repeat split.
    + now apply String.eqb_eq.
    + now apply leb_true.
    + apply any_in_iff. now exists cue.
  - intros (h & Hin & H). rewrite !andb_true_iff in H. destruct H as [[Hl Hs] Ht].
    exists h. repeat split; [exact Hin|now apply String.eqb_eq|now apply leb_true|].
    now apply any_in_iff.
Qed.

Lemma strong_cue_decision_spec (hits : list Hit) :
  Rag._strong_cue_decision hits (PyNum.fl 0.58)
  = let d := existsb (Spec.cue_hit "deny" Rag.deny_cues (PyNum.fl 0.58)) hits in
    let a := existsb (Spec.cue_hit "allow" Rag.allow_cues (PyNum.fl 0.58)) hits in
    if d && negb a then Some (Rag.mkStrong "deny" (PyNum.fl 0.65))
    else if a && negb d then Some (Rag.mkStrong "approve" (PyNum.fl 0.65))
    else None.
Proof.
  unfold Rag._strong_cue_decision. rewrite strong_cue_fold, default_override_confidence.
  reflexivity.
Qed.

(** The three outcomes of the override. *)
Lemma strong_cue_cases (hits : list Hit) :
  (Spec.strong_deny hits /\ ~ Spec.strong_allow hits
   /\ Rag._strong_cue_decision hits (PyNum.fl 0.58)
      = Some (Rag.mkStrong "deny" (PyNum.fl 0.65)))
  \/ (Spec.strong_allow hits /\ ~ Spec.strong_deny hits
      /\ Rag._strong_cue_decision hits (PyNum.fl 0.58)
         = Some (Rag.mkStrong "approve" (PyNum.fl 0.65)))
  \/ (((Spec.strong_deny hits /\ Spec.strong_allow hits)
       \/ (~ Spec.strong_deny hits /\ ~ Spec.strong_allow hits))
      /\ Rag._strong_cue_decision hits (PyNum.fl 0.58) = None).
Proof.
  unfold Spec.strong_deny, Spec.strong_allow. rewrite !fires_iff.
  rewrite strong_cue_decision_spec. cbv zeta.
  destruct (existsb (Spec.cue_hit "deny" Rag.deny_cues (PyNum.fl 0.58)) hits),
    (existsb (Spec.cue_hit "allow" Rag.allow_cues (PyNum.fl 0.58)) hits); cbn [andb negb].
  - right. right. split; [left; split; reflexivity|reflexivity].
  - left. split; [reflexivity|]. split; [discriminate|reflexivity].
  - right. left. split; [reflexivity|]. split; [discriminate|reflexivity].
  - right. right. split; [right; split; discriminate|reflexivity].
Qed.

(** The hit of the scenario makes [strong_deny] fire. *)
Lemma insufficient_fires_deny (hits : list Hit) (h : Hit) :
  In h hits ->
  metadata h !! "label" = Some (Some "deny") ->
  (similarity h == PyNum.fl 0.9)%Q ->
  PyStr.contains "insufficient" (document h) = true ->
  Spec.strong_deny hits.
Proof.
  intros Hin Hl Hs Hc. exists h. split; [exact Hin|]. split.
  - unfold Rag.meta_lower. rewrite Hl. reflexivity.
  - split; [rewrite Hs; vm_compute; discriminate|].
    exists "insufficient". split; [cbn; tauto|].
    apply contains_lower; [reflexivity|exact Hc].
Qed.

(** With an override the payload recommends what the override says, with
    at least its confidence. *)
Lemma override_payload (tag : string) (hits precedent_hits : list Hit)
    (stats : gmap string Z) (r : string) :
  let p := Rag.build_payload tag hits (Some (Rag.mkStrong r (PyNum.fl 0.65)))
             precedent_hits stats in
  Rag.recommend p = Some r /\ (PyNum.fl 0.65 <= Rag.confidence p)%Q.
Proof.
  cbv zeta. rewrite payload_recommend, payload_confidence.
  cbn [Rag.final_decision fst snd Rag.strong_confidence Rag.strong_recommend].
  split; [reflexivity|].
  apply Qle_trans with (PyNum.round (PyNum.fl 0.65) 3); [vm_compute; discriminate|].
  apply round3_mono; [vm_compute; discriminate|].
  apply (max_ge_r (Rag.vote_confidence hits precedent_hits) (PyNum.fl 0.65)).
Qed.

(** C4.  The Strong-Cue Override returns a recommendation exactly when one
    of [strong_deny], [strong_allow] fires and the other does not: [deny] in
    the first case, [approve] in the second, with the confidence
    [max(0.58, 0.65)], which is the float 0.65; when both or neither fire it
    returns nothing and the aggregate scores decide.  A policy hit labelled
    [deny], of similarity 0.9, whose text contains "insufficient", with no
    allow cue firing, makes the payload recommend [deny] with a confidence
    of at least 0.65.  (Labels and texts are compared lower-cased.) *)
Theorem strong_cue_override (hits : list Hit) :
  (Spec.strong_deny hits /\ ~ Spec.strong_allow hits ->
   Rag._strong_cue_decision hits (PyNum.fl 0.58)
   = Some (Rag.mkStrong "deny" (PyNum.max (PyNum.fl 0.58) (PyNum.fl 0.65))))
  /\ (Spec.strong_allow hits /\ ~ Spec.strong_deny hits ->
      Rag._strong_cue_decision hits (PyNum.fl 0.58)
      = Some (Rag.mkStrong "approve" (PyNum.max (PyNum.fl 0.58) (PyNum.fl 0.65))))
  /\ ((Spec.strong_deny hits /\ Spec.strong_allow hits)
      \/ (~ Spec.strong_deny hits /\ ~ Spec.strong_allow hits) ->
      Rag._strong_cue_decision hits (PyNum.fl 0.58) = None
      /\ forall precedent_hits,
          Rag.final_decision (Rag._strong_cue_decision hits (PyNum.fl 0.58))
            hits precedent_hits
          = (Rag.vote_confidence hits precedent_hits,
             if PyNum.ltb (Rag.vote_confidence hits precedent_hits) Rag.MIN_CONF
                || PyNum.leb (Rag.total_score hits precedent_hits)
                             (PyNum.fl (1 # 1000000000))
             then None
             else Some (if PyNum.leb (Rag.deny_score hits precedent_hits)
                                     (Rag.allow_score hits precedent_hits)
                        then "approve" else "deny")))
  /\ (forall st, Rag._strong_cue_decision hits (PyNum.fl 0.58) = Some st ->
        ((Spec.strong_deny hits /\ ~ Spec.strong_allow hits)
         \/ (Spec.strong_allow hits /\ ~ Spec.strong_deny hits))
        /\ Rag.strong_confidence st = PyNum.max (PyNum.fl 0.58) (PyNum.fl 0.65))
  /\ PyNum.max (PyNum.fl 0.58) (PyNum.fl 0.65) = PyNum.fl 0.65
  /\ (forall (h : Hit) (tag : string) (precedent_hits : list Hit) (stats : gmap string Z),
        In h hits ->
        metadata h !! "label" = Some (Some "deny") ->
        (similarity h == PyNum.fl 0.9)%Q ->
        PyStr.contains "insufficient" (document h) = true ->
        ~ Spec.strong_allow hits ->
        let p := Rag.build_payload tag hits (Rag._strong_cue_decision hits (PyNum.fl 0.58))
                   precedent_hits stats in
        Rag.recommend p = Some "deny" /\ (PyNum.fl 0.65 <= Rag.confidence p)%Q).
Proof.
  rewrite default_override_confidence.
  pose proof (strong_cue_cases hits) as Hcases.
  split; [|split; [|split; [|split; [|split]]]].
  - intros [Hd Ha]. destruct Hcases as [(_ & _ & E)|[(_ & Hnd & _)|([[_ Ha']|[Hnd _]] & _)]];
      [exact E|contradiction..].
  - intros [Ha Hd]. destruct Hcases as [(_ & Hna & _)|[(_ & _ & E)|([[Hd' _]|[_ Hna]] & _)]];
      [contradiction|exact E|contradiction..].
  - intros Hboth.
    assert (E : Rag._strong_cue_decision hits (PyNum.fl 0.58) = None).
    { destruct Hcases as [(Hd & Hna & _)|[(Ha & Hnd & _)|(_ & E)]]; [tauto|tauto|exact E]. }
    split; [exact E|]. intros precedent_hits. rewrite E. reflexivity.
  - intros st Hst.
    destruct Hcases as [(Hd & Hna & E)|[(Ha & Hnd & E)|(_ & E)]];
      rewrite E in Hst; [| |discriminate]; injection Hst as <-; (split; [tauto|reflexivity]).
  - reflexivity.
  - intros h tag precedent_hits stats Hin Hl Hs Hc Hna.
    pose proof (insufficient_fires_deny hits h Hin Hl Hs Hc) as Hd.
    destruct Hcases as [(_ & _ & E)|[(Ha & _ & _)|([[_ Ha]|[Hnd _]] & _)]];
      [|contradiction..].
    rewrite E. apply override_payload.
Qed.

Lemma strong_cue_override_witness :
  Rag._strong_cue_decision [Sample.deny_hit; Sample.unlabelled_hit] (PyNum.fl 0.58)
  = Some (Rag.mkStrong "deny" (PyNum.max (PyNum.fl 0.58) (PyNum.fl 0.65)))
  /\ Rag.recommend
       (Rag.build_payload "minor_illness" [Sample.deny_hit; Sample.unlabelled_hit]
          (Rag._strong_cue_decision [Sample.deny_hit; Sample.unlabelled_hit] (PyNum.fl 0.58)) [] ∅)
     = Some "deny".
Proof.
  assert (Hallow : ~ Spec.strong_allow [Sample.deny_hit; Sample.unlabelled_hit]).
  { intros (h & Hin & Hl & _). destruct Hin as [<-|[<-|[]]]; vm_compute in Hl; discriminate. }
  split.
  - apply (strong_cue_override [Sample.deny_hit; Sample.unlabelled_hit]).
    split; [|exact Hallow].
    exists Sample.deny_hit. split; [left; reflexivity|]. split; [reflexivity|].
    split; [vm_compute; discriminate|].
    exists "insufficient". split; [vm_compute; tauto|reflexivity].
  - apply (strong_cue_override [Sample.deny_hit; Sample.unlabelled_hit]) with Sample.deny_hit.
    + left. reflexivity.
    + reflexivity.
    + reflexivity.
    + reflexivity.
    + exact Hallow.
Defined.

(** ** The Precedent Recorder *)

(** The world after a review recorded as [outcome] under [tag]. *)
Lemma record_precedent_run (env : Env) (raw outcome : string)
    (meta : option (gmap string MetaValue)) (tag : option string) (norm : option string)
    (w : World) :
  let o := PyStr.strip (PyStr.lower outcome) in
  let o' := if String.eqb o "approve" then "allow" else o in
  let o'' := if String.eqb o' "reject" then "deny" else o' in
  o'' = "allow" \/ o'' = "deny" ->
  exists m,
    Precedent.record_precedent env raw outcome meta tag norm w =
    (inr tt,
     let t := match tag with Some (String c t) => String c t | _ => Precedent._infer_tag raw end in
     let counters := match precedent_json w with Counters data => data | _ => ∅ end in
     let row := default (<["deny" := 0]> (<["allow" := 0]> ∅)) (counters !! t) in
     mkWorld (S (clock_reads w)) (S (uuid_draws w)) (policy_col w)
       (prec_col w ++ [mkPrecedentEntry (uuid4 env (uuid_draws w)) raw m])
       (Counters (<[t := <[o'' := default 0 (row !! o'') + 1]> row]> counters))
       (lookups w)).
Proof.
  intros o o' o'' Ho. unfold Precedent.record_precedent.
  fold o. fold o'. fold o''.
  assert (E : negb (String.eqb o'' "allow" || String.eqb o'' "deny") = false).
  { destruct Ho as [-> | ->]; reflexivity. }
  rewrite E. eexists.
  unfold bind, read_clock, draw_uuid, Precedent.col_add, Precedent._safe_load_json,
    Precedent._safe_write_json, get_world, ret.
  cbn [clock_reads uuid_draws policy_col prec_col precedent_json lookups].
  destruct (precedent_json w); reflexivity.
Qed.

Lemma review_request_stored (env : Env) (d : string) (days : Z)
    (reason outcome reviewer : string) (w : World) (o : string) :
  (o = "allow" /\ (PyStr.strip (PyStr.lower outcome) = "allow"
                   \/ PyStr.strip (PyStr.lower outcome) = "approve"))
  \/ (o = "deny" /\ (PyStr.strip (PyStr.lower outcome) = "deny"
                     \/ PyStr.strip (PyStr.lower outcome) = "reject")) ->
  exists m,
    Main.review_request env d days reason outcome reviewer w =
    (Main.ReviewStored (Rag.tag_reason reason) o,
     let t := Rag.tag_reason reason in
     let counters := match precedent_json w with Counters data => data | _ => ∅ end in
     let row := default (<["deny" := 0]> (<["allow" := 0]> ∅)) (counters !! t) in
     mkWorld (S (clock_reads w)) (S (uuid_draws w)) (policy_col w)
       (prec_col w ++ [mkPrecedentEntry (uuid4 env (uuid_draws w)) reason m])
       (Counters (<[t := <[o := default 0 (row !! o) + 1]> row]> counters))
       (lookups w)).
Proof.
  intros H. unfold Main.review_request.
  assert (E : (let x := PyStr.strip (PyStr.lower outcome) in
               let x := if String.eqb x "approve" then "allow" else x in
               if String.eqb x "reject" then "deny" else x) = o).
  { destruct H as [[-> [H|H]] | [-> [H|H]]]; rewrite H; reflexivity. }
  cbv zeta in E. rewrite E.
  assert (Ho : o = "allow" \/ o = "deny") by (destruct H as [[? _]|[? _]]; auto).
  assert (E1 : negb (String.eqb o "allow" || String.eqb o "deny") = false)
    by (destruct Ho as [-> | ->]; reflexivity).
  rewrite E1.
  assert (Hid : (let x := PyStr.strip (PyStr.lower o) in
                 let x := if String.eqb x "approve" then "allow" else x in
                 if String.eqb x "reject" then "deny" else x) = o)
    by (destruct Ho as [-> | ->]; reflexivity).
  assert (Hid' : (let x := PyStr.strip (PyStr.lower o) in
                 let x := if String.eqb x "approve" then "allow" else x in
                 if String.eqb x "reject" then "deny" else x) = "allow"
                 \/ (let x := PyStr.strip (PyStr.lower o) in
                 let x := if String.eqb x "approve" then "allow" else x in
                 if String.eqb x "reject" then "deny" else x) = "deny")
    by (rewrite Hid; exact Ho).
  destruct (record_precedent_run env reason o
              (Some (<["reviewer" := MStr reviewer]>
                      (<["days_requested" := MInt days]>
                        (<["deadline_iso" := MStr d]> ∅))))
              (Some (Rag.tag_reason reason)) (Some (Rag.normalize_reason reason)) w Hid')
    as [m Hm].
  exists m. rewrite Hm. cbv zeta. cbv zeta in Hid. rewrite Hid.
  assert (Ht : match Rag.tag_reason reason with
               | String c t => String c t
               | "" => Precedent._infer_tag reason
               end = Rag.tag_reason reason).
  { unfold Rag.tag_reason.
    repeat match goal with |- context [if ?b then _ else _] => destruct b end; reflexivity. }
  rewrite Ht. reflexivity.
Qed.

Lemma review_request_rejected (env : Env) (d : string) (days : Z)
    (reason outcome reviewer : string) (w : World) :
  let o := PyStr.strip (PyStr.lower outcome) in
  o <> "allow" -> o <> "deny" -> o <> "approve" -> o <> "reject" ->
  Main.review_request env d days reason outcome reviewer w
  = (Main.ReviewRejected 400 "Outcome must be allow/deny", w).
Proof.
  intros o H1 H2 H3 H4. unfold Main.review_request. fold o.
  rewrite (eqb_false_of_ne _ _ H3). rewrite (eqb_false_of_ne _ _ H4).
  rewrite (eqb_false_of_ne _ _ H1). rewrite (eqb_false_of_ne _ _ H2). reflexivity.
Qed.

Lemma record_precedent_rejected (env : Env) (raw outcome : string)
    (meta : option (gmap string MetaValue)) (tag norm : option string) (w : World) :
  let o := PyStr.strip (PyStr.lower outcome) in
  o <> "allow" -> o <> "deny" -> o <> "approve" -> o <> "reject" ->
  Precedent.record_precedent env raw outcome meta tag norm w
  = (inl (ValueError "outcome must be 'allow' or 'deny'"), w).
Proof.
  intros o H1 H2 H3 H4. unfold Precedent.record_precedent. fold o.
  rewrite (eqb_false_of_ne _ _ H3). rewrite (eqb_false_of_ne _ _ H4).
  rewrite (eqb_false_of_ne _ _ H1). rewrite (eqb_false_of_ne _ _ H2). reflexivity.
Qed.

(** C7.  RecordReview looks at the outcome lower-cased and trimmed: with
    [approve] it does what it does with [allow], with [reject] what it does
    with [deny]; an outcome that is none of the four is rejected with
    status 400 before anything is written, so that the world, and with it
    the Vector Index and the counters, is the one before the call.
    [record_precedent] itself raises on such an outcome before it writes. *)
Theorem review_outcome_synonyms (env : Env) (d : string) (days : Z)
    (reason outcome reviewer : string) (w : World) :
  let o := PyStr.strip (PyStr.lower outcome) in
  (o = "approve" ->
   Main.review_request env d days reason outcome reviewer w
   = Main.review_request env d days reason "allow" reviewer w)
  /\ (o = "reject" ->
      Main.review_request env d days reason outcome reviewer w
      = Main.review_request env d days reason "deny" reviewer w)
  /\ (o = "allow" \/ o = "approve" ->
      exists w', Main.review_request env d days reason outcome reviewer w
                 = (Main.ReviewStored (Rag.tag_reason reason) "allow", w'))
  /\ (o = "deny" \/ o = "reject" ->
      exists w', Main.review_request env d days reason outcome reviewer w
                 = (Main.ReviewStored (Rag.tag_reason reason) "deny", w'))
  /\ (o <> "allow" -> o <> "deny" -> o <> "approve" -> o <> "reject" ->
      Main.review_request env d days reason outcome reviewer w
      = (Main.ReviewRejected 400 "Outcome must be allow/deny", w)
      /\ forall meta tag norm,
          Precedent.record_precedent env reason outcome meta tag norm w
          = (inl (ValueError "outcome must be 'allow' or 'deny'"), w)).
Proof.
  intros o. repeat split.
  - intros H. unfold Main.review_request. fold o. rewrite H. reflexivity.
  - intros H. unfold Main.review_request. fold o. rewrite H. reflexivity.
  - intros H.
    destruct (review_request_stored env d days reason outcome reviewer w "allow") as [m Hm];
      [left; split; [reflexivity|exact H]|].
    eexists. exact Hm.
  - intros H.
    destruct (review_request_stored env d days reason outcome reviewer w "deny") as [m Hm];
      [right; split; [reflexivity|exact H]|].
    eexists. exact Hm.
  - now apply review_request_rejected.
  - intros. now apply record_precedent_rejected.
Qed.

(** One recorded [allow] raises one counter by one. *)
Lemma counter_after_review (env : Env) (T : string) (r : Spec.Review) (w : World) :
  Spec.allows T r ->
  exists w',
    Spec.review env r w = (Main.ReviewStored T "allow", w')
    /\ Spec.counter w' T "allow" = Spec.counter w T "allow" + 1
    /\ forall t o, (t, o) <> (T, "allow") -> Spec.counter w' t o = Spec.counter w t o.
Proof.
  intros [Ht Ho]. unfold Spec.review.
  destruct (review_request_stored env (Spec.rv_deadline_iso r) (Spec.rv_days_requested r)
              (Spec.rv_reason_text r) (Spec.rv_outcome r) (Spec.rv_reviewer r) w "allow")
    as [m Hm]; [left; split; [reflexivity|exact Ho]|].
  rewrite Hm, Ht. eexists. split; [reflexivity|].
  unfold Spec.counter. cbn [precedent_json].
  set (counters := match precedent_json w with Counters data => data | _ => ∅ end).
  split.
  - rewrite lookup_insert_eq. cbn [from_option id]. rewrite lookup_insert_eq. cbn [from_option id].
    destruct (counters !! T) as [row|]; reflexivity.
  - intros t o Hne. destruct (decide (t = T)) as [->|Hne'].
    + assert (o <> "allow") by congruence.
      rewrite lookup_insert_eq. cbn [from_option id].
      rewrite lookup_insert_ne by congruence.
      destruct (counters !! T) as [row|]; [reflexivity|]. cbn [from_option id].
      destruct (decide (o = "deny")) as [->|Hd]; [reflexivity|].
      rewrite lookup_insert_ne by congruence.
      rewrite lookup_insert_ne by congruence. reflexivity.
    + rewrite lookup_insert_ne by congruence. reflexivity.
Qed.

(** C8.  After [N] RecordReview calls in a row that are recorded as [allow]
    under the tag [T], [counters[T].allow] is [N] higher and every other
    counter reads what it read before; each of the calls succeeds, raises
    that counter by exactly one and leaves the others alone. *)
Theorem counter_increases_by_N (env : Env) (T : string) (rs : list Spec.Review) (w : World) :
  Forall (Spec.allows T) rs ->
  Spec.counter (Spec.run_reviews env rs w) T "allow"
  = Spec.counter w T "allow" + Z.of_nat (length rs)
  /\ (forall t o, (t, o) <> (T, "allow") ->
      Spec.counter (Spec.run_reviews env rs w) t o = Spec.counter w t o)
  /\ Forall (fun r => forall w1, exists w2,
               Spec.review env r w1 = (Main.ReviewStored T "allow", w2)
               /\ Spec.counter w2 T "allow" = Spec.counter w1 T "allow" + 1
               /\ forall t o, (t, o) <> (T, "allow") ->
                              Spec.counter w2 t o = Spec.counter w1 t o) rs.
Proof.
  intros H. revert w. induction H as [|r rs Hr Hrs IH]; intros w.
  - repeat split; [cbn; lia | constructor].
  - destruct (counter_after_review env T r w Hr) as (w' & Hrun & Hinc & Hsame).
    destruct (IH w') as (IH1 & IH2 & IH3).
    unfold Spec.run_reviews in *. cbn [fold_left]. rewrite Hrun. cbn [snd].
    repeat split.
    + rewrite IH1, Hinc. rewrite length_cons. lia.
    + intros t o Hne. rewrite IH2 by exact Hne. now apply Hsame.
    + constructor; [|exact IH3]. intros w1. now apply counter_after_review.
Qed.

Lemma review_outcome_synonyms_witness :
  Main.review_request Sample.env "2025-11-02T00:00:00Z" 2 "My grandfather passed away"
    " Approve " "dean" Sample.policy_world
  = Main.review_request Sample.env "2025-11-02T00:00:00Z" 2 "My grandfather passed away"
      "allow" "dean" Sample.policy_world
  /\ Main.review_request Sample.env "2025-11-02T00:00:00Z" 2 "My grandfather passed away"
       "maybe" "dean" Sample.policy_world
     = (Main.ReviewRejected 400 "Outcome must be allow/deny", Sample.policy_world).
Proof.
  split.
  - apply (review_outcome_synonyms Sample.env "2025-11-02T00:00:00Z" 2
             "My grandfather passed away" " Approve " "dean" Sample.policy_world).
    reflexivity.
  - apply (review_outcome_synonyms Sample.env "2025-11-02T00:00:00Z" 2
             "My grandfather passed away" "maybe" "dean" Sample.policy_world);
      vm_compute; discriminate.
Defined.

Lemma counter_increases_by_N_witness :
  List.Forall (Spec.allows "bereavement") Sample.three_allows
  /\ Spec.counter (Spec.run_reviews Sample.env Sample.three_allows Sample.policy_world)
       "bereavement" "allow" = 3.
Proof.
  assert (H : List.Forall (Spec.allows "bereavement") Sample.three_allows).
  { repeat (apply List.Forall_cons;
            [split; [vm_compute; reflexivity
                    |first [left; vm_compute; reflexivity | right; vm_compute; reflexivity]]|]).
    apply List.Forall_nil. }
  split; [exact H|].
  exact (proj1 (counter_increases_by_N Sample.env "bereavement" Sample.three_allows
                  Sample.policy_world H)).
Defined.

(** ** The Decide handler *)

#[local] Arguments Rules._parse_iso_z : simpl never.

Lemma now_utc_run (env : Env) (w : World) :
  Rules.now_utc env w = (Spec.now_after env (clock_reads w), Spec.tick env w).
Proof.
  unfold Rules.now_utc, Spec.now_after, Spec.tick, Spec.frozen.
  destruct (demo_now env) as [[|c s]|]; try reflexivity.
Qed.

Lemma tick_reads (env : Env) (w : World) :
  Spec.now_after env (clock_reads (Spec.tick env w)) = Spec.now_after env (S (clock_reads w)).
Proof.
  unfold Spec.now_after, Spec.tick, Spec.frozen.
  destruct (demo_now env) as [[|c s]|]; reflexivity.
Qed.

Lemma tick_store (env : Env) (w : World) :
  Spec.same_store w (Spec.tick env w) /\ lookups (Spec.tick env w) = lookups w.
Proof. unfold Spec.tick, Spec.same_store. destruct (Spec.frozen env); cbn; auto. Qed.

Lemma deadline_meta_run (env : Env) (d : string) (w : World) :
  Rules.deadline_meta env d w =
  (match Spec.now_after env (clock_reads w), Rules._parse_iso_z d with
   | inr now, inr dl =>
       let h := Rules.hours_between (DateTime.to_micros dl) now in
       inr (Rules.mkDeadlineMeta now dl (PyNum.round h 1)
              (PyNum.leb 0 h && PyNum.leb h 48) (PyNum.ltb 48 h))
   | inl e, _ => inl e
   | inr _, inl e => inl e
   end, Spec.tick env w).
Proof.
  unfold Rules.deadline_meta, Rules.hours_to_deadline, bind, lift, ret.
  rewrite now_utc_run.
  destruct (Spec.now_after env (clock_reads w)) as [e|now]; [reflexivity|].
  destruct (Rules._parse_iso_z d) as [e|dl]; reflexivity.
Qed.

Lemma auto_approve_run (env : Env) (d : string) (w : World) :
  Rules.auto_approve_beyond_48h env d None w =
  (match Spec.now_after env (clock_reads w), Rules._parse_iso_z d with
   | inr now, inr dl =>
       let h := Rules.hours_between (DateTime.to_micros dl) now in
       inr (PyNum.ltb 48 h, h)
   | inl e, _ => inl e
   | inr _, inl e => inl e
   end, Spec.tick env w).
Proof.
  unfold Rules.auto_approve_beyond_48h, Rules.hours_to_deadline, bind, lift, ret.
  rewrite now_utc_run.
  destruct (Spec.now_after env (clock_reads w)) as [e|now]; [reflexivity|].
  destruct (Rules._parse_iso_z d) as [e|dl]; reflexivity.
Qed.

(** One run of [submit_request]. *)
Lemma submit_request_run (env : Env) (d : string) (days : Z) (reason : string) (w : World) :
  Main.submit_request env d days reason w =
  match Spec.now_after env (clock_reads w), Rules._parse_iso_z d with
  | inl (ValueError msg), _ =>
      (Main.ErrorResponse 400 "invalid_deadline_iso" msg, Spec.tick env w)
  | inr _, inl (ValueError msg) =>
      (Main.ErrorResponse 400 "invalid_deadline_iso" msg, Spec.tick env w)
  | inr now1, inr dl =>
      match Spec.now_after env (S (clock_reads w)) with
      | inl (ValueError msg) =>
          (Main.ErrorResponse 400 "invalid_deadline_iso" msg, Spec.tick env (Spec.tick env w))
      | inr now2 =>
          let h1 := Rules.hours_between (DateTime.to_micros dl) now1 in
          let dl_meta := Rules.mkDeadlineMeta now1 dl (PyNum.round h1 1)
                           (PyNum.leb 0 h1 && PyNum.leb h1 48) (PyNum.ltb 48 h1) in
          let hours_left := Rules.hours_between (DateTime.to_micros dl) now2 in
          if PyNum.ltb 48 hours_left then
            (Main.RuleResponse
               (Main.mkAutoApprove "approve" "rule_beyond_48h" 1
                  (Main.format_1f hours_left +:+ "h to deadline (> 48h) → auto-approve.")
                  dl_meta), Spec.tick env (Spec.tick env w))
          else
            match Rag.policy_lookup env reason 5 (Spec.tick env (Spec.tick env w)) with
            | (inr pol, w') => (Main.LookupResponse pol dl_meta, w')
            | (inl e, w') => (Main.Unhandled e, w')
            end
      end
  end.
Proof.
  unfold Main.submit_request, bind, ret.
  rewrite deadline_meta_run.
  destruct (Spec.now_after env (clock_reads w)) as [[msg]|now1]; [reflexivity|].
  destruct (Rules._parse_iso_z d) as [[msg]|dl] eqn:Ed; [reflexivity|].
  rewrite auto_approve_run, tick_reads, Ed.
  destruct (Spec.now_after env (S (clock_reads w))) as [[msg]|now2]; [reflexivity|].
  cbv zeta. destruct (PyNum.ltb 48 _); reflexivity.
Qed.

Lemma now_after_any (env : Env) (n m : nat) (now : Z) :
  Spec.now_after env n = inr now -> exists now', Spec.now_after env m = inr now'.
Proof.
  unfold Spec.now_after. destruct (demo_now env) as [[|c s]|]; eauto.
Qed.

(** C1, as the code has it.  When the deadline parses and [hours_left] is
    above 48, Decide answers on the rule path: [decision = approve],
    [confidence = 1.0], [via = rule_beyond_48h], and the reply carries no
    [recommend] field; no policy or precedent lookup is made and nothing
    stored changes. *)
Theorem beyond_48h_auto_approves (env : Env) (d : string) (days : Z) (reason : string)
    (w : World) (h : Q) :
  Spec.hours_left env w d = Some h -> (48 < h)%Q ->
  exists explanation dl_meta w',
    Main.submit_request env d days reason w
    = (Main.RuleResponse
         (Main.mkAutoApprove "approve" "rule_beyond_48h" 1 explanation dl_meta), w')
    /\ Spec.response_field (fst (Main.submit_request env d days reason w)) "decision"
       = Some (Spec.JStr "approve")
    /\ Spec.response_field (fst (Main.submit_request env d days reason w)) "confidence"
       = Some (Spec.JNum 1)
    /\ Spec.response_field (fst (Main.submit_request env d days reason w)) "via"
       = Some (Spec.JStr "rule_beyond_48h")
    /\ Spec.response_field (fst (Main.submit_request env d days reason w)) "recommend" = None
    /\ lookups w' = lookups w
    /\ Spec.same_store w w'.
Proof.
  unfold Spec.hours_left. intros Hh Hlt.
  destruct (Rules._parse_iso_z d) as [e|dl] eqn:Ed; [discriminate|].
  destruct (Spec.now_after env (S (clock_reads w))) as [e|now2] eqn:En; [discriminate|].
  injection Hh as <-.
  destruct (now_after_any env _ (clock_reads w) _ En) as [now1 En1].
  rewrite submit_request_run, En1, Ed, En. cbv zeta.
  rewrite (proj2 (ltb_true _ _) Hlt).
  do 3 eexists. split; [reflexivity|]. cbn [fst Spec.response_field].
  repeat (split; [reflexivity|]).
  destruct (tick_store env w) as [(H1 & H2 & H3) H4].
  destruct (tick_store env (Spec.tick env w)) as [(H1' & H2' & H3') H4'].
  unfold Spec.same_store. repeat split; congruence.
Qed.

Lemma beyond_48h_auto_approves_witness :
  (48 < Rules.hours_between 1762300800000000 1762000000000001)%Q
  /\ exists explanation dl_meta w',
      Main.submit_request Sample.env "2025-11-05T00:00:00Z" 2 "Cold/flu for two days"
        Sample.policy_world
      = (Main.RuleResponse
           (Main.mkAutoApprove "approve" "rule_beyond_48h" 1 explanation dl_meta), w')
      /\ lookups w' = [].
Proof.
  assert (Hh : Spec.hours_left Sample.env Sample.policy_world "2025-11-05T00:00:00Z"
               = Some (Rules.hours_between 1762300800000000 1762000000000001))
    by (vm_compute; reflexivity).
  assert (Hlt : (48 < Rules.hours_between 1762300800000000 1762000000000001)%Q)
    by (vm_compute; reflexivity).
  split; [exact Hlt|].
  destruct (beyond_48h_auto_approves Sample.env "2025-11-05T00:00:00Z" 2
              "Cold/flu for two days" Sample.policy_world _ Hh Hlt)
    as (explanation & dl_meta & w' & H & _ & _ & _ & _ & Hl & _).
  exists explanation, dl_meta, w'. split; [exact H|exact Hl].
Defined.

(** C1, as stated, fails: on a deadline more than 48 hours away the reply
    has no [recommend] field at all, so it does not hold [approve]. *)
Lemma rule_reply_lacks_recommend :
  (exists h, Spec.hours_left Sample.env Sample.policy_world "2025-11-05T00:00:00Z" = Some h
             /\ (48 < h)%Q)
  /\ Spec.response_field
       (fst (Main.submit_request Sample.env "2025-11-05T00:00:00Z" 2 "Cold/flu for two days"
               Sample.policy_world)) "recommend"
     <> Some (Spec.JStr "approve").
Proof.
  split.
  - exists (Rules.hours_between 1762300800000000 1762000000000001).
    split; vm_compute; reflexivity.
  - vm_compute. discriminate.
Qed.

(** ** The evidence path on an empty corpus *)

Lemma to_policy_hits_nil (env : Env) (q : string) (k : positive) :
  Rag._to_policy_hits env [] q k = [].
Proof.
  unfold Rag._to_policy_hits, Rag.col_query.
  change (PyList.stable_sort _ (@nil PolicyEntry)) with (@nil PolicyEntry).
  rewrite firstn_nil. reflexivity.
Qed.

(** C9.  A request that reaches the evidence path while both collections
    are empty and every counter reads zero is answered [needs_review] with
    confidence 0, no recommendation, an empty evidence list, and precedent
    statistics that are zero throughout. *)
Theorem empty_corpus_needs_review (env : Env) (d : string) (days : Z) (reason : string)
    (w : World) (h : Q) :
  policy_col w = [] -> prec_col w = [] ->
  (forall tag outcome, Spec.counter w tag outcome = 0) ->
  Spec.hours_left env w d = Some h -> (h <= 48)%Q ->
  exists pol dl_meta w',
    Main.submit_request env d days reason w = (Main.LookupResponse pol dl_meta, w')
    /\ Rag.decision pol = "needs_review"
    /\ Rag.recommend pol = None
    /\ (Rag.confidence pol == 0)%Q
    /\ Rag.evidence pol = []
    /\ (forall outcome, default 0 (Rag.p_stats (Rag.precedent pol) !! outcome) = 0)
    /\ (Rag.p_allow_rate (Rag.precedent pol) == 0)%Q.
Proof.
  unfold Spec.hours_left. intros Hpol Hprec Hzero Hh Hle.
  destruct (Rules._parse_iso_z d) as [e|dl] eqn:Ed; [discriminate|].
  destruct (Spec.now_after env (S (clock_reads w))) as [e|now2] eqn:En; [discriminate|].
  injection Hh as <-.
  destruct (now_after_any env _ (clock_reads w) _ En) as [now1 En1].
  rewrite submit_request_run, En1, Ed, En. cbv zeta.
  rewrite (proj2 (ltb_false _ _) Hle).
  rewrite policy_lookup_run.
  destruct (tick_store env w) as [(H1 & H2 & H3) H4].
  destruct (tick_store env (Spec.tick env w)) as [(H1' & H2' & H3') H4'].
  rewrite H1', H1, Hpol, to_policy_hits_nil, H3', H3.
  do 3 eexists. split; [reflexivity|].
  set (stats := match precedent_json w with
                | Counters data => default ∅ (data !! Rag.tag_reason reason)
                | _ => ∅
                end).
  assert (Hstats : forall outcome, default 0 (stats !! outcome) = 0).
  { intros outcome. specialize (Hzero (Rag.tag_reason reason) outcome).
    unfold Spec.counter in Hzero. unfold stats.
    destruct (precedent_json w); [reflexivity|reflexivity|exact Hzero]. }
  split; [reflexivity|]. split; [reflexivity|]. split; [reflexivity|].
  split; [reflexivity|]. split; [exact Hstats|].
  cbn [Rag.build_payload Rag.precedent Rag.p_allow_rate].
  unfold Rag.build_payload.
  destruct (Rag.final_decision _ _ _). cbn [Rag.precedent].
  unfold Rag.precedent_info. cbn [Rag.p_allow_rate].
  rewrite (Hstats "allow"), (Hstats "deny"). reflexivity.
Qed.

Lemma empty_corpus_needs_review_witness :
  (Rules.hours_between 1762041600000000 1762000000000001 <= 48)%Q
  /\ exists pol dl_meta w',
      Main.submit_request Sample.env "2025-11-02T00:00:00Z" 2 "Cold/flu for two days"
        Sample.empty_world = (Main.LookupResponse pol dl_meta, w')
      /\ Rag.decision pol = "needs_review"
      /\ (Rag.confidence pol == 0)%Q
      /\ Rag.evidence pol = [].
Proof.
  assert (Hh : Spec.hours_left Sample.env Sample.empty_world "2025-11-02T00:00:00Z"
               = Some (Rules.hours_between 1762041600000000 1762000000000001))
    by (vm_compute; reflexivity).
  assert (Hle : (Rules.hours_between 1762041600000000 1762000000000001 <= 48)%Q)
    by (vm_compute; discriminate).
  split; [exact Hle|].
  destruct (empty_corpus_needs_review Sample.env "2025-11-02T00:00:00Z" 2
              "Cold/flu for two days" Sample.empty_world _ eq_refl eq_refl
              (fun _ _ => eq_refl) Hh Hle)
    as (pol & dl_meta & w' & H & Hd & _ & Hc & He & _).
  exists pol, dl_meta, w'. auto.
Defined.

(** ** Deadline strings *)

Section DeadlineFacts.

Lemma length_append (a b : string) :
  String.length (a +:+ b) = (String.length a + String.length b)%nat.
Proof.
  induction a as [|c a IH]; [reflexivity|]. rewrite append_cons. cbn. now rewrite IH.
Qed.

Lemma substring_app (i n : nat) (a x : string) :
  (i + n <= String.length a)%nat ->
  String.substring i n (a +:+ x) = String.substring i n a.
Proof.
  revert i n. induction a as [|c a IH]; intros i n H.
  - cbn in H. assert (i = 0%nat) by lia. assert (n = 0%nat) by lia. subst.
    rewrite append_nil_l. now destruct x.
  - rewrite append_cons. destruct i as [|i].
    + destruct n as [|n]; [reflexivity|]. cbn. f_equal. apply IH. cbn in H. lia.
    + cbn. apply IH. cbn in H. lia.
Qed.

Lemma take_app (a x : string) : PyStr.take (String.length a) (a +:+ x) = a.
Proof.
  unfold PyStr.take. induction a as [|c a IH].
  - rewrite append_nil_l. now destruct x.
  - rewrite append_cons. cbn. now rewrite IH.
Qed.

Lemma drop_last_app (x suffix : string) :
  PyStr.drop_last (String.length suffix) (x +:+ suffix) = x.
Proof.
  unfold PyStr.drop_last. rewrite length_append.
  replace (String.length x + String.length suffix - String.length suffix)%nat
    with (String.length x) by lia.
  apply take_app.
Qed.

Lemma endswith_unfold (s suffix : string) :
  PyStr.endswith s suffix
  = String.eqb s suffix
    || match s with
       | EmptyString => false
       | String _ s' => PyStr.endswith s' suffix
       end.
Proof. destruct s; reflexivity. Qed.

Lemma endswith_iff (s suffix : string) :
  PyStr.endswith s suffix = true <-> exists x, s = x +:+ suffix.
Proof.
  split.
  - induction s as [|c s IH]; rewrite endswith_unfold; intros H;
      apply orb_true_iff in H as [H|H]; try discriminate.
    + apply String.eqb_eq in H. now exists "".
    + apply String.eqb_eq in H. now exists "".
    + destruct (IH H) as [x ->]. now exists (String c x).
  - intros [x ->]. induction x as [|c x IH].
    + rewrite append_nil_l, endswith_unfold, String.eqb_refl. reflexivity.
    + rewrite append_cons, endswith_unfold, IH. apply orb_true_r.
Qed.

(** *** Matching a sequence of character classes *)

Lemma fullmatch_length (p : list PyRe.item) (s : string) :
  PyRe.fullmatch p s = true -> String.length s = length p.
Proof.
  revert s. induction p as [|i p IH]; intros [|c s] H; try discriminate; [reflexivity|].
  cbn in H. apply andb_true_iff in H as [_ H]. cbn. now rewrite (IH _ H).
Qed.

Lemma fullmatch_app (p q : list PyRe.item) (x y : string) :
  String.length y = length q ->
  PyRe.fullmatch (p ++ q) (x +:+ y) = PyRe.fullmatch p x && PyRe.fullmatch q y.
Proof.
  intros Hy. revert x. induction p as [|i p IH]; intros [|c x].
  - reflexivity.
  - rewrite append_cons. cbn [app PyRe.fullmatch].
    destruct (PyRe.fullmatch q (String c (x +:+ y))) eqn:E; [|reflexivity].
    apply fullmatch_length in E. cbn in E. rewrite length_append in E. lia.
  - rewrite append_nil_l. cbn [PyRe.fullmatch andb].
    destruct (PyRe.fullmatch ((i :: p) ++ q) y) eqn:E; [|reflexivity].
    apply fullmatch_length in E. rewrite length_app in E. cbn in E. lia.
  - rewrite append_cons. cbn [app PyRe.fullmatch]. rewrite IH. now rewrite andb_assoc.
Qed.

Lemma fullmatch_app_inv (p q : list PyRe.item) (s : string) :
  PyRe.fullmatch (p ++ q) s = true ->
  exists x y, s = x +:+ y /\ PyRe.fullmatch p x = true /\ PyRe.fullmatch q y = true.
Proof.
  revert s. induction p as [|i p IH]; intros s H.
  - exists "", s. auto.
  - destruct s as [|c s]; [discriminate|]. cbn in H.
    apply andb_true_iff in H as [Hi H]. destruct (IH _ H) as (x & y & -> & Hx & Hy).
    exists (String c x), y. repeat split; [|exact Hy]. cbn. now rewrite Hi, Hx.
Qed.

Lemma fullmatch_lits (x s : string) :
  PyRe.fullmatch (PyRe.lits x) s = true <-> s = x.
Proof.
  revert s. induction x as [|c x IH]; intros [|d s]; cbn; try (split; congruence).
  rewrite andb_true_iff, IH. split.
  - intros [H ->]. apply Ascii.eqb_eq in H. now subst.
  - intros [= -> ->]. split; [apply Ascii.eqb_refl|reflexivity].
Qed.

(** *** No trailing white space after [strip] *)

Lemma append_last_inv (a b : string) (c d : ascii) :
  a +:+ String c "" = b +:+ String d "" -> a = b /\ c = d.
Proof.
  revert b. induction a as [|x a IH]; intros [|y b]; rewrite ?append_nil_l, ?append_cons;
    intros H.
  - now injection H.
  - injection H as _ H. destruct b; discriminate.
  - injection H as _ H. destruct a; discriminate.
  - injection H as -> H. destruct (IH _ H) as [-> ->]. auto.
Qed.

Lemma rstrip_last (s p : string) (c : ascii) :
  PyStr.rstrip s = p +:+ String c "" -> PyStr.is_space c = false.
Proof.
  revert p. induction s as [|a s IH]; intros p H.
  - destruct p; discriminate.
  - cbn in H. destruct (PyStr.rstrip s) as [|b r] eqn:E.
    + destruct (PyStr.is_space a) eqn:Ea; [destruct p; discriminate|].
      destruct p as [|x p]; [now injection H as <-|].
      rewrite append_cons in H. injection H as _ H. destruct p; discriminate.
    + destruct p as [|x p].
      * rewrite append_nil_l in H. discriminate.
      * rewrite append_cons in H. injection H as _ H. exact (IH _ H).
Qed.

Lemma map_last_inv (f : ascii -> ascii) (s p : string) (c : ascii) :
  PyStr.map f s = p +:+ String c "" ->
  exists p' c', s = p' +:+ String c' "" /\ f c' = c.
Proof.
  revert p. induction s as [|a s IH]; intros p H.
  - destruct p; discriminate.
  - cbn in H. destruct p as [|x p].
    + rewrite append_nil_l in H. injection H as H1 H2.
      destruct s; [|discriminate]. now exists "", a.
    + rewrite append_cons in H. injection H as _ H.
      destruct (IH _ H) as (p' & c' & -> & Hc). now exists (String a p'), c'.
Qed.

Lemma upper_char_newline (c : ascii) :
  PyStr.upper_char c = "010"%char -> PyStr.is_space c = true.
Proof.
  destruct c as [[] [] [] [] [] [] [] []]; vm_compute; intros H;
    first [reflexivity | discriminate].
Qed.

Lemma upper_strip_no_newline (d p : string) :
  PyStr.upper (PyStr.strip d) <> p +:+ String "010" "".
Proof.
  intros H. apply map_last_inv in H as (p' & c' & Hs & Hc).
  apply rstrip_last in Hs. apply upper_char_newline in Hc. congruence.
Qed.

(** *** [replace("Z", "+00:00")] on a matched timestamp *)

Lemma replace_go_skip_prefix (p : list PyRe.item) (a rest new : string) :
  forallb (fun i => negb (PyRe.item_ok i "Z")) p = true ->
  PyRe.fullmatch p a = true ->
  PyStr.replace_go "Z" new 0 (a +:+ rest) = a +:+ PyStr.replace_go "Z" new 0 rest.
Proof.
  revert a. induction p as [|i p IH]; intros [|c a] Hp Ha; try discriminate.
  - reflexivity.
  - cbn in Hp, Ha. apply andb_true_iff in Hp as [Hi Hp].
    apply andb_true_iff in Ha as [Hc Ha].
    rewrite !append_cons. cbn [PyStr.replace_go String.prefix].
    destruct (ascii_dec "Z" c) as [<-|Hne].
    + rewrite Hc in Hi. discriminate.
    + now rewrite (IH _ Hp Ha).
Qed.

Lemma replace_z (a : string) :
  PyRe.fullmatch DateTime.date_time_pattern a = true ->
  PyStr.replace "Z" "+00:00" (a +:+ "Z") = a +:+ "+00:00".
Proof.
  intros Ha. unfold PyStr.replace.
  now rewrite (replace_go_skip_prefix DateTime.date_time_pattern a "Z" "+00:00" eq_refl Ha).
Qed.

Lemma fields_app (a x : string) :
  String.length a = 19%nat -> DateTime.fields (a +:+ x) = DateTime.fields a.
Proof.
  intros H. unfold DateTime.fields, DateTime.slice.
  rewrite !substring_app by (rewrite H; lia). reflexivity.
Qed.

(** The pattern of the source and the grammar of the specification are
    the same sequence. *)
Lemma date_time_pattern_is_grammar : Spec.date_time = DateTime.date_time_pattern.
Proof. reflexivity. Qed.

(** What [_parse_iso_z] does once the string is not empty. *)
Lemma conforms_cases (u : string) :
  (forall p, u <> p +:+ String "010" "") ->
  let s1 := if PyStr.endswith u "+00:00" then PyStr.drop_last 6 u +:+ "Z" else u in
  Rules.ISO_Z_RE_match s1 = Spec.conforms_grammar u
  /\ (Spec.conforms_grammar u = true ->
      exists a, PyRe.fullmatch DateTime.date_time_pattern a = true
                /\ s1 = a +:+ "Z" /\ DateTime.fields u = DateTime.fields a).
Proof.
  intros Hnl. unfold Rules.ISO_Z_RE_match, Rules.ISO_Z_RE, Spec.conforms_grammar.
  rewrite date_time_pattern_is_grammar.
  set (P := DateTime.date_time_pattern).
  change (PyRe.lits "Z") with [PyRe.Lit "Z"%char].
  destruct (PyStr.endswith u "+00:00") eqn:E.
  - apply endswith_iff in E as [x ->].
    change 6%nat with (String.length "+00:00"). rewrite drop_last_app. cbv zeta.
    assert (E1 : PyRe.fullmatch (P ++ [PyRe.Lit "Z"%char]) (x +:+ "Z") = PyRe.fullmatch P x).
    { rewrite fullmatch_app by reflexivity. cbn. now rewrite andb_true_r. }
    assert (E2 : PyRe.fullmatch ((P ++ [PyRe.Lit "Z"%char]) ++ [PyRe.Lit "010"%char])
                   (x +:+ "Z") = false).
    { rewrite fullmatch_app by reflexivity. cbn. now rewrite andb_false_r. }
    assert (E3 : PyRe.fullmatch (P ++ [PyRe.Lit "Z"%char]) (x +:+ "+00:00") = false).
    { change (x +:+ "+00:00") with (x +:+ ("+00:0" +:+ "0")).
      rewrite <- append_assoc, fullmatch_app by reflexivity. cbn. now rewrite andb_false_r. }
    assert (E4 : PyRe.fullmatch (P ++ PyRe.lits "+00:00") (x +:+ "+00:00")
                 = PyRe.fullmatch P x).
    { rewrite fullmatch_app by reflexivity. cbn. now rewrite andb_true_r. }
    rewrite E1, E2, E3, E4, orb_false_r. cbn [orb]. split; [reflexivity|].
    intros Hx. exists x. repeat split; [exact Hx|].
    rewrite fields_app; [reflexivity|]. now rewrite (fullmatch_length _ _ Hx).
  - cbv zeta.
    assert (E2 : PyRe.fullmatch ((P ++ [PyRe.Lit "Z"%char]) ++ [PyRe.Lit "010"%char]) u
                 = false).
    { destruct (PyRe.fullmatch ((P ++ [PyRe.Lit "Z"%char]) ++ [PyRe.Lit "010"%char]) u)
        eqn:E2; [|reflexivity].
      apply fullmatch_app_inv in E2 as (x & y & -> & _ & Hy).
      apply (fullmatch_lits (String "010" "")) in Hy. subst y. now destruct (Hnl x). }
    assert (E4 : PyRe.fullmatch (P ++ PyRe.lits "+00:00") u = false).
    { destruct (PyRe.fullmatch (P ++ PyRe.lits "+00:00") u) eqn:E4; [|reflexivity].
      apply fullmatch_app_inv in E4 as (x & y & -> & _ & Hy).
      apply fullmatch_lits in Hy. subst y.
      assert (PyStr.endswith (x +:+ "+00:00") "+00:00" = true)
        by (apply endswith_iff; now exists x).
      congruence. }
    rewrite E2, E4, !orb_false_r. split; [reflexivity|].
    intros Hu. apply fullmatch_app_inv in Hu as (x & y & -> & Hx & Hy).
    apply (fullmatch_lits "Z") in Hy. subst y. exists x. repeat split; [exact Hx|].
    rewrite fields_app; [reflexivity|]. now rewrite (fullmatch_length _ _ Hx).
Qed.

Lemma check_fields_message (t : DateTime.datetime) (msg : string) :
  DateTime.check_fields t = Some msg -> msg <> "".
Proof.
  unfold DateTime.check_fields.
  repeat match goal with |- context [if ?b then _ else _] => destruct b end;
    intros [= <-]; discriminate.
Qed.

Lemma parse_iso_z_spec (d : string) :
  match Rules._parse_iso_z d with
  | inr _ => Spec.accepted d = true
  | inl (ValueError msg) => Spec.accepted d = false /\ msg <> ""
  end.
Proof.
  unfold Rules._parse_iso_z, Spec.accepted.
  destruct (String.eqb d "") eqn:Ed.
  - apply String.eqb_eq in Ed. subst d. split; [reflexivity|discriminate].
  - set (u := PyStr.upper (PyStr.strip d)).
    destruct (conforms_cases u (upper_strip_no_newline d)) as [Hre Hok].
    cbv zeta in Hre, Hok. rewrite Hre.
    destruct (Spec.conforms_grammar u) eqn:Hc; cbn [negb andb].
    + destruct (Hok eq_refl) as (a & Ha & -> & Hf).
      rewrite (replace_z _ Ha). unfold DateTime.fromisoformat.
      rewrite fullmatch_app, Ha by reflexivity.
      change (PyRe.fullmatch (PyRe.lits "+00:00") "+00:00") with true. cbn [andb].
      rewrite (fields_app a "+00:00") by now rewrite (fullmatch_length _ _ Ha).
      unfold Spec.calendar_ok. rewrite Hf.
      destruct (DateTime.check_fields (DateTime.fields a)) as [msg|] eqn:Hm.
      * split; [reflexivity|]. exact (check_fields_message _ _ Hm).
      * reflexivity.
    + split; [reflexivity|]. discriminate.
Qed.

End DeadlineFacts.

Lemma frozen_now_parses (env : Env) (n : nat) :
  Spec.frozen_now_ok env -> exists now, Spec.now_after env n = inr now.
Proof.
  unfold Spec.frozen_now_ok, Spec.now_after.
  destruct (demo_now env) as [[|c s]|]; eauto.
  intros [t ->]. eauto.
Qed.

(** C6, as the code has it.  With a frozen "now" that parses, if one is
    configured, Decide rejects a deadline string with the error
    [invalid_deadline_iso], status 400 and a non-empty message, before any
    lookup and without changing anything stored, if and only if the string,
    once trimmed of surrounding white space and upper-cased, does not
    conform to the grammar or conforms but names a year 0000, a month
    outside 1..12, a day the month does not have, an hour above 23, or a
    minute or second above 59. *)
Theorem deadline_rejected_iff_not_accepted (env : Env) (d : string) (days : Z)
    (reason : string) (w : World) :
  Spec.frozen_now_ok env ->
  (Spec.accepted d = false ->
   exists msg w',
     Main.submit_request env d days reason w
     = (Main.ErrorResponse 400 "invalid_deadline_iso" msg, w')
     /\ msg <> "" /\ lookups w' = lookups w /\ Spec.same_store w w')
  /\ (Spec.accepted d = true ->
      forall status error msg,
        fst (Main.submit_request env d days reason w)
        <> Main.ErrorResponse status error msg).
Proof.
  intros Hok.
  destruct (frozen_now_parses env (clock_reads w) Hok) as [now1 E1].
  destruct (frozen_now_parses env (S (clock_reads w)) Hok) as [now2 E2].
  rewrite submit_request_run, E1, E2.
  pose proof (parse_iso_z_spec d) as Hp.
  destruct (Rules._parse_iso_z d) as [[msg]|dl].
  - destruct Hp as [Ha Hm]. split; [|congruence].
    intros _. exists msg, (Spec.tick env w). split; [reflexivity|]. split; [exact Hm|].
    destruct (tick_store env w) as [Hs Hl]. auto.
  - split; [congruence|]. intros _ status error msg. cbv zeta.
    destruct (PyNum.ltb 48 _); [discriminate|].
    rewrite policy_lookup_run. discriminate.
Qed.

Lemma deadline_rejected_iff_not_accepted_witness :
  (Spec.accepted "2025-02-30T09:00:00Z" = false
   /\ exists msg w',
       Main.submit_request Sample.frozen_env "2025-02-30T09:00:00Z" 2 "Cold/flu for two days"
         Sample.policy_world
       = (Main.ErrorResponse 400 "invalid_deadline_iso" msg, w') /\ msg <> "")
  /\ (Spec.accepted " 2025-11-02t09:00:00+00:00 " = true
      /\ forall status error msg,
          fst (Main.submit_request Sample.frozen_env " 2025-11-02t09:00:00+00:00 " 2
                 "Cold/flu for two days" Sample.policy_world)
          <> Main.ErrorResponse status error msg).
Proof.
  assert (Hok : Spec.frozen_now_ok Sample.frozen_env) by (vm_compute; eauto).
  split; (split; [reflexivity|]).
  - destruct (proj1 (deadline_rejected_iff_not_accepted Sample.frozen_env
                       "2025-02-30T09:00:00Z" 2 "Cold/flu for two days" Sample.policy_world
                       Hok) eq_refl)
      as (msg & w' & H & Hm & _).
    exists msg, w'. split; [exact H|exact Hm].
  - apply (proj2 (deadline_rejected_iff_not_accepted Sample.frozen_env
                    " 2025-11-02t09:00:00+00:00 " 2 "Cold/flu for two days"
                    Sample.policy_world Hok) eq_refl).
Defined.

(** C6, as stated, fails in both directions: a lower-case [t] and [z] do
    not conform to the grammar and yet the deadline is accepted, and the
    30th of February conforms to the grammar and yet is rejected. *)
Lemma grammar_is_not_the_criterion :
  (Spec.conforms_grammar "2025-11-05t00:00:00z" = false
   /\ forall status error msg,
       fst (Main.submit_request Sample.env "2025-11-05t00:00:00z" 2 "Cold/flu for two days"
              Sample.policy_world)
       <> Main.ErrorResponse status error msg)
  /\ (Spec.conforms_grammar "2025-02-30T09:00:00Z" = true
      /\ fst (Main.submit_request Sample.env "2025-02-30T09:00:00Z" 2 "Cold/flu for two days"
                Sample.policy_world)
         = Main.ErrorResponse 400 "invalid_deadline_iso" "day is out of range for month").
Proof.
  split; split.
  - reflexivity.
  - intros status error msg. vm_compute. discriminate.
  - reflexivity.
  - vm_compute. reflexivity.
Qed.

(** ** Floats of either sign *)

Section SignedFloats.
Open Scope Q_scope.









End SignedFloats.

(** ** The 48-hour rule, to the microsecond *)

Section Threshold.
Open Scope Q_scope.






End Threshold.







(** With a running clock the two readings can fall on either side of the
    48 hours: the reply then comes from the evidence path and says
    [beyond_48h = True]. *)
Example running_clock_crosses_48h :
  Obs.clock_monotone Obs.late_env
  /\ exists pol m w',
      Main.submit_request Obs.late_env "2025-11-03T12:26:40Z" 2 "Cold/flu for two days"
        Sample.policy_world = (Main.LookupResponse pol m, w')
      /\ Rules.dm_beyond_48h m = true.
Proof.
  split; [intros n; cbn; lia|].
  destruct (Main.submit_request Obs.late_env "2025-11-03T12:26:40Z" 2 "Cold/flu for two days"
              Sample.policy_world) as [r w'] eqn:E.
  vm_compute in E. injection E as <- <-.
  do 3 eexists. split; reflexivity.
Qed.

(** ** The evidence of a payload *)





(** ** What Decide leaves alone *)


(** ** The precedent section of a payload *)

Section HintFacts.
Open Scope Q_scope.





End HintFacts.



(** ** How low a confidence can be *)

Section ConfidenceFloor.
Open Scope Q_scope.








End ConfidenceFloor.



(** ** What RecordReview stores *)






